(** * Gemini: the multimodal forward dispatch of [gemini_torch/model.py]

    A shallow embedding of the [Gemini] module: its constructor, which
    wires a transformer, an autoregressive wrapper and two modality
    encoders together, and its [forward] method, which picks one of four
    paths from the presence of the optional [img] and [audio] arguments.

    The sub-modules ([Transformer], [Decoder], [AutoregressiveWrapper],
    [ImageToTextEmbeddings], [AudioToEmbeddings]) are collaborators whose
    code is not part of [model.py]; they are taken as an interface (the
    class [Collaborators]) and every statement below is proved for all of
    its implementations. *)

From Stdlib Require Import List String Ascii Bool Arith ZArith Lia.
From Stdlib Require Import DecimalString.
Import ListNotations.

Local Open Scope list_scope.
Local Open Scope string_scope.

Set Implicit Arguments.

(* ================================================================== *)
(** * Python values used by the module *)

(** An exception object: its class name, what [str(e)] prints, and
    whether it is an instance of [Exception] (as against one that only
    derives from [BaseException], such as [KeyboardInterrupt] or
    [SystemExit]), which is what an [except Exception] clause tests. *)
Record exn : Type :=
  mk_exn { exn_class : string; exn_str : string; exn_is_Exception : bool }.

(** Result of evaluating a Python expression: a value or a raised
    exception. *)
Inductive outcome (A : Type) : Type :=
| Ret (a : A)
| Raise (e : exn).
Arguments Ret {A} a.
Arguments Raise {A} e.

(** [exists(val)]: [val is not None]. *)
Definition exists_ {A} (val : option A) : bool :=
  match val with Some _ => true | None => false end.

(** The line terminator written by [print]. *)
Definition nl : string := String (ascii_of_nat 10) EmptyString.

(** [str(n)] for a non-negative integer. *)
Definition str_nat (n : nat) : string := NilEmpty.string_of_uint (Nat.to_uint n).

(** What [print(a1, ..., an)] writes: the arguments separated by one
    space and followed by a newline. *)
Definition print_text (args : list string) : string :=
  String.concat " " args ++ nl.

(* ================================================================== *)
(** * Tensors and [torch.cat] *)

(** A tensor is its shape and its elements in row-major order.  The
    element type is left open: [model.py] never computes on elements. *)
Record tensor (scalar : Type) : Type :=
  mk_tensor { shape : list nat; data : list scalar }.
Arguments mk_tensor {scalar} shape data.

Definition numel (s : list nat) : nat := fold_right Nat.mul 1 s.

Definition well_shaped {S} (t : tensor S) : Prop :=
  List.length (data t) = numel (shape t).

(** [str(t.shape)], e.g. [torch.Size([1, 3])]. *)
Definition str_Size (s : list nat) : string :=
  "torch.Size([" ++ String.concat ", " (map str_nat s) ++ "])".

Definition shape_eqb (s1 s2 : list nat) : bool :=
  if list_eq_dec Nat.eq_dec s1 s2 then true else false.

(** [torch.cat] leaves out legacy empty tensors of shape [(0,)]. *)
Definition should_skip {S} (t : tensor S) : bool :=
  match shape t with
  | [0] => true
  | _ => false
  end.

Definition zero_dim {S} (t : tensor S) : bool :=
  match shape t with
  | [] => true
  | _ => false
  end.

Definition RuntimeError (msg : string) : exn := mk_exn "RuntimeError" msg true.

(** [torch.cat(tensors)] with its default [dim=0], which is how line 139
    of the source calls it.  The tensors must agree in their number of
    dimensions and in every size but the first; the first sizes add up
    and the row-major data are appended.  (The numbers that torch puts
    into the text of its error messages are left out.) *)
Definition torch_cat {S} (tensors : list (tensor S)) : outcome (tensor S) :=
  match tensors with
  | [] => Raise (RuntimeError "torch.cat(): expected a non-empty list of Tensors")
  | _ :: _ =>
    if existsb zero_dim tensors then
      Raise (RuntimeError "zero-dimensional tensor cannot be concatenated")
    else
      match filter (fun t => negb (should_skip t)) tensors with
      | [] => Ret (mk_tensor [0] [])
      | t0 :: rest =>
        if negb (forallb (fun t => Nat.eqb (List.length (shape t)) (List.length (shape t0))) rest) then
          Raise (RuntimeError "Tensors must have same number of dimensions")
        else if negb (forallb (fun t => shape_eqb (tl (shape t)) (tl (shape t0))) rest) then
          Raise (RuntimeError "Sizes of tensors must match except in dimension 0")
        else
          Ret (mk_tensor
                 (list_sum (map (fun t => hd 0 (shape t)) (t0 :: rest)) :: tl (shape t0))
                 (List.concat (map (fun t => data t) (t0 :: rest))))
      end
  end.

(* ================================================================== *)
(** * The collaborators of [model.py] *)

(** The constructor's named arguments with their defaults
    (lines 42-57). *)
Record hparams : Type := mk_hparams {
  num_tokens : Z;
  max_seq_len : Z;
  dim : Z;
  depth : Z;
  dim_head : Z;
  heads : Z;
  use_abs_pos_emb : bool;
  attn_flash : bool;
  attn_kv_heads : Z;
  qk_norm : bool;
  attn_qk_norm : bool;
  attn_qk_norm_dim_scale : bool;
  patches : Z;
  patch_size : Z;
  img_channels : Z;
  audio_seq_len : Z
}.

Definition default_hparams : hparams :=
  {| num_tokens := 50432; max_seq_len := 32052; dim := 2560; depth := 32;
     dim_head := 128; heads := 24; use_abs_pos_emb := false;
     attn_flash := true; attn_kv_heads := 2; qk_norm := true;
     attn_qk_norm := true; attn_qk_norm_dim_scale := true;
     patches := 16; patch_size := 16; img_channels := 3;
     audio_seq_len := 128 |}.

(** Keyword arguments of [Decoder(...)], lines 69-81. *)
Record Decoder_kwargs : Type := mk_Decoder_kwargs {
  dk_dim : Z; dk_depth : Z; dk_dim_head : Z; dk_heads : Z;
  dk_attn_flash : bool; dk_attn_kv_heads : Z; dk_qk_norm : bool;
  dk_attn_qk_norm : bool; dk_attn_qk_norm_dim_scale : bool
}.

(** Keyword arguments of [Transformer(...)], lines 65-82. *)
Record Transformer_kwargs (L : Type) : Type := mk_Transformer_kwargs {
  tk_num_tokens : Z; tk_max_seq_len : Z; tk_use_abs_pos_emb : bool;
  tk_attn_layers : L
}.

(** Keyword arguments of [ImageToTextEmbeddings(...)], lines 88-90. *)
Record ImageToTextEmbeddings_kwargs : Type := mk_ImageToTextEmbeddings_kwargs {
  ik_patch_size : Z; ik_dim : Z; ik_seq_len : Z
}.

(** Keyword arguments of [AudioToEmbeddings(...)], lines 93-98. *)
Record AudioToEmbeddings_kwargs : Type := mk_AudioToEmbeddings_kwargs {
  ak_audio_seq_len : Z; ak_seqlen : Z
}.

(** An external call: run from the current state of the sub-modules, it
    returns or raises, leaves a new state and may have printed. *)
Definition ext (store A : Type) : Type := store -> outcome A * store * string.

(** The interface [model.py] programs against.  [extra] stands for a
    caller's [*args, **kwargs], which the source hands on untouched;
    [store] holds the parameters and buffers of the sub-modules.  A
    call that Python rejects while binding its arguments raises like any
    other call. *)
Class Collaborators : Type := {
  scalar : Type;
  extra : Type;
  store : Type;
  TransformerT : Type;
  AttnLayersT : Type;
  WrapperT : Type;
  ImageEncoderT : Type;
  AudioEncoderT : Type;
  Decoder : Decoder_kwargs -> extra -> ext store AttnLayersT;
  Transformer : Transformer_kwargs AttnLayersT -> ext store TransformerT;
  AutoregressiveWrapper : TransformerT -> ext store WrapperT;
  ImageToTextEmbeddings :
    ImageToTextEmbeddings_kwargs -> extra -> ext store ImageEncoderT;
  AudioToEmbeddings :
    AudioToEmbeddings_kwargs -> extra -> ext store AudioEncoderT;
  (** [wrapper(text, prepend_embeds=..., *args, **kwargs)];
      [None] is the call that passes no [prepend_embeds]. *)
  call_AutoregressiveWrapper :
    WrapperT -> tensor scalar -> option (tensor scalar) -> extra ->
    ext store (tensor scalar);
  call_ImageToTextEmbeddings :
    ImageEncoderT -> tensor scalar -> ext store (tensor scalar);
  call_AudioToEmbeddings :
    AudioEncoderT -> tensor scalar -> ext store (tensor scalar)
}.

Section Model.

Context {C : Collaborators}.

Local Abbreviation Tensor := (tensor scalar).

(** The attributes that [__init__] sets on [self]. *)
Record Gemini : Type := mk_Gemini {
  gemini : TransformerT;
  decoder : WrapperT;
  img_to_text_embedding : ImageEncoderT;
  audio_to_lang_embedding : AudioEncoderT
}.

(** Calls that leave [model.py], in the order they are made. *)
Inductive call : Type :=
| new_Decoder (kw : Decoder_kwargs) (ex : extra)
| new_Transformer (kw : Transformer_kwargs AttnLayersT)
| new_AutoregressiveWrapper (net : TransformerT)
| new_ImageToTextEmbeddings (kw : ImageToTextEmbeddings_kwargs) (ex : extra)
| new_AudioToEmbeddings (kw : AudioToEmbeddings_kwargs) (ex : extra)
| to_decoder (text : Tensor) (prepend_embeds : option Tensor) (ex : extra)
| to_img_encoder (img : Tensor)
| to_audio_encoder (audio : Tensor).

(** What a caller can observe around a call: standard output, the calls
    made so far (kept for the proofs; the source has no such log) and
    the state of the sub-modules. *)
Record world : Type := mk_world {
  stdout : string;
  calls : list call;
  modules : store
}.

(** ** Statements with output, state and exceptions *)

Definition M (A : Type) : Type := world -> outcome A * world.

Definition ret {A} (a : A) : M A := fun w => (Ret a, w).

Definition raise {A} (e : exn) : M A := fun w => (Raise e, w).

Definition bind {A B} (m : M A) (k : A -> M B) : M B := fun w =>
  match m w with
  | (Ret a, w') => k a w'
  | (Raise e, w') => (Raise e, w')
  end.

Definition lift {A} (r : outcome A) : M A := fun w => (r, w).

(** [print(a1, ..., an)]. *)
Definition print (args : list string) : M unit := fun w =>
  (Ret tt, mk_world (stdout w ++ print_text args) (calls w) (modules w)).

(** An external call [f], noted as [c]. *)
Definition invoke {A} (c : call) (f : ext store A) : M A := fun w =>
  let '(r, s, out) := f (modules w) in
  (r, mk_world (stdout w ++ out) (calls w ++ [c])%list s).

(** [try: body  except Exception as e: handler].  An exception that is
    not an instance of [Exception] is not caught: it goes on to the
    caller and the handler does not run. *)
Definition try_except {A} (body : M A) (handler : exn -> M A) : M A := fun w =>
  match body w with
  | (Ret a, w') => (Ret a, w')
  | (Raise e, w') =>
      if exn_is_Exception e then handler e w' else (Raise e, w')
  end.

End Model.

Declare Scope py_scope.
Delimit Scope py_scope with py.
Notation "x <- c1 ;; c2" := (bind c1 (fun x => c2))
  (at level 61, c1 at next level, right associativity) : py_scope.
Notation "c1 ;; c2" := (bind c1 (fun _ => c2))
  (at level 61, right associativity) : py_scope.

(* ================================================================== *)
(** * [class Gemini] *)

Section GeminiModule.

Context {C : Collaborators}.

Local Abbreviation Tensor := (tensor scalar).
Local Open Scope py_scope.

Definition AttributeError (msg : string) : exn := mk_exn "AttributeError" msg true.

(** The text of the two log lines (their first [print] argument). *)
Definition init_prefix : string := "Failed to initialize gemini: ".
Definition forward_prefix : string := "Failed in forward method: ".

(** The [try] body of [__init__], lines 64-98.  Note that the image
    encoder receives [patches] as its [patch_size]. *)
Definition init_body (hp : hparams) (ex : extra) : M Gemini :=
  let dkw := mk_Decoder_kwargs (dim hp) (depth hp) (dim_head hp) (heads hp)
               (attn_flash hp) (attn_kv_heads hp) (qk_norm hp)
               (attn_qk_norm hp) (attn_qk_norm_dim_scale hp) in
  attn_layers <- invoke (new_Decoder dkw ex) (Decoder dkw ex) ;;
  let tkw := mk_Transformer_kwargs (num_tokens hp) (max_seq_len hp)
               (use_abs_pos_emb hp) attn_layers in
  gemini <- invoke (new_Transformer tkw) (Transformer tkw) ;;
  decoder <- invoke (new_AutoregressiveWrapper gemini)
               (AutoregressiveWrapper gemini) ;;
  let ikw := mk_ImageToTextEmbeddings_kwargs (patches hp) (dim hp)
               (max_seq_len hp) in
  img_to_text_embedding <-
    invoke (new_ImageToTextEmbeddings ikw ex) (ImageToTextEmbeddings ikw ex) ;;
  let akw := mk_AudioToEmbeddings_kwargs (audio_seq_len hp) (max_seq_len hp) in
  audio_to_lang_embedding <-
    invoke (new_AudioToEmbeddings akw ex) (AudioToEmbeddings akw ex) ;;
  ret (mk_Gemini gemini decoder img_to_text_embedding audio_to_lang_embedding).

(** [Gemini.__init__], lines 40-102: the body under
    [except Exception as e: print("Failed to initialize gemini: ", e); raise e].
    A raising [__init__] gives the caller no object. *)
Definition Gemini_init (hp : hparams) (ex : extra) : M Gemini :=
  try_except (init_body hp ex)
    (fun e => print [init_prefix; exn_str e] ;; raise e).

(** The three sub-module calls of [forward]. *)
Definition self_decoder (self : Gemini) (text : Tensor)
    (prepend_embeds : option Tensor) (ex : extra) : M Tensor :=
  invoke (to_decoder text prepend_embeds ex)
    (call_AutoregressiveWrapper (decoder self) text prepend_embeds ex).

Definition self_img_to_text_embedding (self : Gemini) (img : Tensor) : M Tensor :=
  invoke (to_img_encoder img)
    (call_ImageToTextEmbeddings (img_to_text_embedding self) img).

Definition self_audio_to_lang_embedding (self : Gemini) (audio : Tensor) : M Tensor :=
  invoke (to_audio_encoder audio)
    (call_AudioToEmbeddings (audio_to_lang_embedding self) audio).

(** The [try] body of [forward], lines 132-157.  The four cases of the
    match are, in the source's order, [exists(img) and exists(audio)],
    [elif exists(img)], [elif exists(audio)] and [else]. *)
Definition forward_body (self : Gemini) (text : Tensor)
    (img audio : option Tensor) (ex : extra) : M Tensor :=
  match img, audio with
  | Some img, Some audio =>
      audio <- self_audio_to_lang_embedding self audio ;;
      img <- self_img_to_text_embedding self img ;;
      fused <- lift (torch_cat [text; img; audio]) ;;
      self_decoder self text (Some fused) ex
  | Some img, None =>
      img <- self_img_to_text_embedding self img ;;
      self_decoder self text (Some img) ex
  | None, Some audio =>
      audio <- self_audio_to_lang_embedding self audio ;;
      self_decoder self text (Some audio) ex
  | None, None =>
      self_decoder self text None ex
  end.

(** [Gemini.forward], lines 104-160.  Line 130 reads [text.shape] before
    the [try]: on [None] that raises [AttributeError] outside of it. *)
Definition forward (self : Gemini) (text img audio : option Tensor)
    (ex : extra) : M Tensor :=
  match text with
  | None => raise (AttributeError "'NoneType' object has no attribute 'shape'")
  | Some text =>
      print ["Text shape: " ++ str_Size (shape text)] ;;
      try_except (forward_body self text img audio ex)
        (fun e => print [forward_prefix; exn_str e] ;; raise e)
  end.

(** ** Observations on a run *)

(** The log line for exception [e] under [prefix]. *)
Definition failure_line (prefix : string) (e : exn) : string :=
  print_text [prefix; exn_str e].

Definition is_to_decoder (c : call) : bool :=
  match c with to_decoder _ _ _ => true | _ => false end.

Definition is_to_img_encoder (c : call) : bool :=
  match c with to_img_encoder _ => true | _ => false end.

Definition is_to_audio_encoder (c : call) : bool :=
  match c with to_audio_encoder _ => true | _ => false end.

Definition count (p : call -> bool) (l : list call) : nat :=
  List.length (filter p l).

End GeminiModule.

(* ================================================================== *)
(** * Worlds reached by the two [print] statements of [forward] *)

Section Worlds.

Context {C : Collaborators}.

(** The world after line 130 has printed the shape of [text]. *)
Definition shape_printed (text : tensor scalar) (w : world) : world :=
  mk_world (stdout w ++ print_text ["Text shape: " ++ str_Size (shape text)])
           (calls w) (modules w).

(** The world after a handler has printed its line for [e]. *)
Definition failure_logged (prefix : string) (e : exn) (w : world) : world :=
  mk_world (stdout w ++ failure_line prefix e) (calls w) (modules w).

(** The world in which an exception [e] raised under a [try] leaves
    it: with the handler's line if the [except Exception] clause catches
    [e], untouched if it does not. *)
Definition handled (prefix : string) (e : exn) (w : world) : world :=
  if exn_is_Exception e then failure_logged prefix e w else w.

(** An external call that leaves the state of the sub-modules as it
    found it. *)
Definition read_only {A} (f : ext store A) : Prop :=
  forall s, snd (fst (f s)) = s.

(** What [forward] may hand to a sub-module when called with [text],
    [img], [audio] and [ex]: the decoder gets the caller's text and
    extra arguments, and a [prepend_embeds] exactly when a modality is
    present; an encoder gets the caller's own tensor; nothing is
    constructed. *)
Definition forward_call_ok (text img audio : option (tensor scalar))
    (ex : extra) (c : call) : Prop :=
  match c with
  | to_decoder t p ex' =>
      text = Some t /\ ex' = ex /\ exists_ p = exists_ img || exists_ audio
  | to_img_encoder x => img = Some x
  | to_audio_encoder x => audio = Some x
  | _ => False
  end.

(** The state in which an external call, made from state [s] on the
    sub-modules of [self] (or, for a constructor, on its arguments),
    leaves the sub-modules. *)
Definition store_after (self : Gemini) (c : call) (s : store) : store :=
  match c with
  | new_Decoder kw ex => snd (fst (Decoder kw ex s))
  | new_Transformer kw => snd (fst (Transformer kw s))
  | new_AutoregressiveWrapper net => snd (fst (AutoregressiveWrapper net s))
  | new_ImageToTextEmbeddings kw ex => snd (fst (ImageToTextEmbeddings kw ex s))
  | new_AudioToEmbeddings kw ex => snd (fst (AudioToEmbeddings kw ex s))
  | to_decoder t p ex =>
      snd (fst (call_AutoregressiveWrapper (decoder self) t p ex s))
  | to_img_encoder x =>
      snd (fst (call_ImageToTextEmbeddings (img_to_text_embedding self) x s))
  | to_audio_encoder x =>
      snd (fst (call_AudioToEmbeddings (audio_to_lang_embedding self) x s))
  end.

(** The state after a sequence of external calls made one after the
    other. *)
Definition replay (self : Gemini) (cs : list call) (s : store) : store :=
  fold_left (fun s' c => store_after self c s') cs s.

End Worlds.

(** [hp] with other values for the two constructor arguments
    [patch_size] and [img_channels]. *)
Definition with_patch_size_and_channels (hp : hparams) (ps ic : Z) : hparams :=
  mk_hparams (num_tokens hp) (max_seq_len hp) (dim hp) (depth hp)
    (dim_head hp) (heads hp) (use_abs_pos_emb hp) (attn_flash hp)
    (attn_kv_heads hp) (qk_norm hp) (attn_qk_norm hp)
    (attn_qk_norm_dim_scale hp) (patches hp) ps ic (audio_seq_len hp).

(* ================================================================== *)
(** * Test doubles

    A small implementation of the interface on which the model can be
    run: integer tensors, no extra arguments, a counter of registered
    sub-modules as state.  The constructors check their sizes; the
    encoders hand their input on as its own embedding and reject a
    zero-dimensional input; the decoder answers with its text. *)

Module Stub.

Definition ValueError (msg : string) : exn := mk_exn "ValueError" msg true.

Definition register {A} (a : A) : ext nat A := fun n => (Ret a, S n, "").

Definition reject {A} (e : exn) : ext nat A := fun n => (Raise e, n, "").

Definition pure_call {A} (r : outcome A) : ext nat A := fun n => (r, n, "").

Definition new_decoder (kw : Decoder_kwargs) (_ : unit) : ext nat Z :=
  if (dk_dim kw <=? 0)%Z then reject (ValueError "dim must be positive")
  else register (dk_dim kw).

Definition new_image_encoder (kw : ImageToTextEmbeddings_kwargs) (_ : unit)
  : ext nat Z :=
  if (ik_patch_size kw <=? 0)%Z then reject (ValueError "patch_size must be positive")
  else register (ik_patch_size kw).

Definition encode (_ : Z) (x : tensor Z) : ext nat (tensor Z) :=
  if zero_dim x then pure_call (Raise (RuntimeError "expected a batched input"))
  else pure_call (Ret x).

Definition decode (_ : Z) (text : tensor Z) (_ : option (tensor Z)) (_ : unit)
  : ext nat (tensor Z) :=
  pure_call (Ret text).

Definition collaborators : Collaborators :=
  {| scalar := Z;
     extra := unit;
     store := nat;
     TransformerT := Z;
     AttnLayersT := Z;
     WrapperT := Z;
     ImageEncoderT := Z;
     AudioEncoderT := Z;
     Decoder := new_decoder;
     Transformer := fun kw => register (tk_num_tokens kw);
     AutoregressiveWrapper := fun net => register net;
     ImageToTextEmbeddings := new_image_encoder;
     AudioToEmbeddings := fun kw _ => register (ak_audio_seq_len kw);
     call_AutoregressiveWrapper := decode;
     call_ImageToTextEmbeddings := encode;
     call_AudioToEmbeddings := encode |}.

(** A model built from the default hyperparameters. *)
Definition model : @Gemini collaborators := mk_Gemini (C := collaborators) 50432%Z 50432%Z 16%Z 128%Z.

Definition w0 : @world collaborators := mk_world (C := collaborators) "" [] 5.

(** A tensor of the given shape filled with [v]. *)
Definition full (s : list nat) (v : Z) : tensor Z :=
  mk_tensor s (repeat v (numel s)).

(** Sample inputs: a text of batch size 1, an image of batch size 2 and
    an audio clip of batch size 3, all with 2 positions of hidden size
    2; and an image without dimensions, which the encoder rejects. *)
Definition sample_text : tensor Z := full [1; 2; 2] 7%Z.
Definition sample_img : tensor Z := full [2; 2; 2] 1%Z.
Definition sample_audio : tensor Z := full [3; 2; 2] 2%Z.
Definition sample_fused : tensor Z :=
  mk_tensor [6; 2; 2] (data sample_text ++ data sample_img ++ data sample_audio)%list.
Definition scalar_img : tensor Z := full [] 1%Z.

(** A text of token ids, of shape (batch, sequence). *)
Definition token_ids : tensor Z := full [1; 2] 7%Z.

(** Embeddings of 2 and 3 positions. *)
Definition short_embeds : tensor Z := full [1; 2; 2] 1%Z.
Definition long_embeds : tensor Z := full [1; 3; 2] 2%Z.


(** Hyperparameters with which the image encoder cannot be built. *)
Definition no_patches : hparams :=
  mk_hparams 50432 32052 2560 32 128 24 false true 2 true true true 0 16 3 128.

End Stub.

(** The test doubles on a run that the user interrupts: building the
    attention layers and calling the decoder raise [KeyboardInterrupt],
    which is not an instance of [Exception]. *)
Module Interrupted.

Definition KeyboardInterrupt : exn := mk_exn "KeyboardInterrupt" "" false.

Definition collaborators : Collaborators :=
  {| scalar := Z;
     extra := unit;
     store := nat;
     TransformerT := Z;
     AttnLayersT := Z;
     WrapperT := Z;
     ImageEncoderT := Z;
     AudioEncoderT := Z;
     Decoder := fun _ _ => Stub.reject KeyboardInterrupt;
     Transformer := fun kw => Stub.register (tk_num_tokens kw);
     AutoregressiveWrapper := fun net => Stub.register net;
     ImageToTextEmbeddings := Stub.new_image_encoder;
     AudioToEmbeddings := fun kw _ => Stub.register (ak_audio_seq_len kw);
     call_AutoregressiveWrapper :=
       fun _ _ _ _ => Stub.pure_call (Raise KeyboardInterrupt);
     call_ImageToTextEmbeddings := Stub.encode;
     call_AudioToEmbeddings := Stub.encode |}.

Definition model : @Gemini collaborators :=
  mk_Gemini (C := collaborators) 50432%Z 50432%Z 16%Z 128%Z.

Definition w0 : @world collaborators := mk_world (C := collaborators) "" [] 5.

End Interrupted.

(** The test doubles with a decoder that keeps count of its calls in
    the state of the sub-modules. *)
Module Stateful.

Definition counting_decode (_ : Z) (text : tensor Z) (_ : option (tensor Z))
    (_ : unit) : ext nat (tensor Z) :=
  fun n => (Ret text, S n, "").

Definition collaborators : Collaborators :=
  {| scalar := Z;
     extra := unit;
     store := nat;
     TransformerT := Z;
     AttnLayersT := Z;
     WrapperT := Z;
     ImageEncoderT := Z;
     AudioEncoderT := Z;
     Decoder := Stub.new_decoder;
     Transformer := fun kw => Stub.register (tk_num_tokens kw);
     AutoregressiveWrapper := fun net => Stub.register net;
     ImageToTextEmbeddings := Stub.new_image_encoder;
     AudioToEmbeddings := fun kw _ => Stub.register (ak_audio_seq_len kw);
     call_AutoregressiveWrapper := counting_decode;
     call_ImageToTextEmbeddings := Stub.encode;
     call_AudioToEmbeddings := Stub.encode |}.

Definition model : @Gemini collaborators :=
  mk_Gemini (C := collaborators) 50432%Z 50432%Z 16%Z 128%Z.

Definition w0 : @world collaborators := mk_world (C := collaborators) "" [] 5.

End Stateful.

(* ================================================================== *)
(** * Properties *)

(** ** Strings and counting *)

Lemma string_app_assoc (a b c : string) : (a ++ b) ++ c = a ++ (b ++ c).
Proof.
  induction a as [|ch a IH]; simpl.
  - reflexivity.
  - now rewrite IH.
Qed.

Lemma string_app_empty_r (a : string) : a ++ "" = a.
Proof.
  induction a as [|ch a IH]; simpl; [reflexivity | now rewrite IH].
Qed.

Section Properties.

Context {C : Collaborators}.

Local Abbreviation Tensor := (tensor scalar).

Lemma count_app (p : call -> bool) (l1 l2 : list call) :
  count p (l1 ++ l2)%list = count p l1 + count p l2.
Proof.
  unfold count. now rewrite filter_app, length_app.
Qed.

(** The conditions of the source's [if]/[elif] chain, for each case of
    the match in [forward_body]. *)
Lemma branch_conditions {A} (img audio : option A) :
  match img, audio with
  | Some _, Some _ => exists_ img && exists_ audio = true
  | Some _, None => exists_ img && exists_ audio = false /\ exists_ img = true
  | None, Some _ =>
      exists_ img && exists_ audio = false /\ exists_ img = false
      /\ exists_ audio = true
  | None, None =>
      exists_ img && exists_ audio = false /\ exists_ img = false
      /\ exists_ audio = false
  end.
Proof. destruct img, audio; cbn; repeat split. Qed.

(** ** How the statements run *)

Lemma run_invoke {A} (c : call) (f : ext store A) (w : world) :
  invoke c f w =
  (fst (fst (f (modules w))),
   mk_world (stdout w ++ snd (f (modules w))) (calls w ++ [c])%list
            (snd (fst (f (modules w))))).
Proof.
  unfold invoke. destruct (f (modules w)) as [[r s] o]. reflexivity.
Qed.

Lemma run_bind_ret {A B} (m : M A) (k : A -> M B) w a w' :
  m w = (Ret a, w') -> bind m k w = k a w'.
Proof. unfold bind. now intros ->. Qed.

Lemma run_bind_raise {A B} (m : M A) (k : A -> M B) w e w' :
  m w = (Raise e, w') -> bind m k w = (Raise e, w').
Proof. unfold bind. now intros ->. Qed.

Lemma run_print (args : list string) (w : world) :
  print args w =
  (Ret tt, mk_world (stdout w ++ print_text args) (calls w) (modules w)).
Proof. reflexivity. Qed.

Lemma calls_handled (prefix : string) (e : exn) (w : world) :
  calls (handled prefix e w) = calls w.
Proof. unfold handled. now destruct (exn_is_Exception e). Qed.

Lemma modules_handled (prefix : string) (e : exn) (w : world) :
  modules (handled prefix e w) = modules w.
Proof. unfold handled. now destruct (exn_is_Exception e). Qed.

Lemma handled_Exception (prefix : string) (e : exn) (w : world) :
  exn_is_Exception e = true -> handled prefix e w = failure_logged prefix e w.
Proof. unfold handled. now intros ->. Qed.

(** [forward] on a present text: line 130, then the guarded body. *)
Lemma forward_some (self : Gemini) (t : Tensor) img audio ex w :
  forward self (Some t) img audio ex w =
  match forward_body self t img audio ex (shape_printed t w) with
  | (Ret y, w1) => (Ret y, w1)
  | (Raise e, w1) => (Raise e, handled forward_prefix e w1)
  end.
Proof.
  unfold forward, bind, try_except. rewrite run_print.
  fold (shape_printed t w).
  destruct (forward_body self t img audio ex (shape_printed t w)) as [[y|e] w1];
    [reflexivity|].
  unfold handled. destruct (exn_is_Exception e); reflexivity.
Qed.

(** [__init__]: the guarded body and its handler. *)
Lemma init_unfold (hp : hparams) ex w :
  Gemini_init hp ex w =
  match init_body hp ex w with
  | (Ret g, w1) => (Ret g, w1)
  | (Raise e, w1) => (Raise e, handled init_prefix e w1)
  end.
Proof.
  unfold Gemini_init, try_except.
  destruct (init_body hp ex w) as [[g|e] w1]; [reflexivity|].
  unfold handled. destruct (exn_is_Exception e); reflexivity.
Qed.

(** ** The guarded body, branch by branch *)

Lemma body_text_only (self : Gemini) (t : Tensor) ex w :
  forward_body self t None None ex w =
  invoke (to_decoder t None ex)
         (call_AutoregressiveWrapper (decoder self) t None ex) w.
Proof. reflexivity. Qed.

Lemma body_img_only (self : Gemini) (t i : Tensor) ex w :
  forward_body self t (Some i) None ex w =
  let enc := call_ImageToTextEmbeddings (img_to_text_embedding self) i (modules w) in
  let w1 := mk_world (stdout w ++ snd enc) (calls w ++ [to_img_encoder i])%list
                     (snd (fst enc)) in
  match fst (fst enc) with
  | Ret i' => invoke (to_decoder t (Some i') ex)
                (call_AutoregressiveWrapper (decoder self) t (Some i') ex) w1
  | Raise e => (Raise e, w1)
  end.
Proof.
  unfold forward_body, self_img_to_text_embedding, self_decoder, bind.
  rewrite run_invoke.
  destruct (fst (fst (call_ImageToTextEmbeddings _ i (modules w)))); reflexivity.
Qed.

Lemma body_audio_only (self : Gemini) (t a : Tensor) ex w :
  forward_body self t None (Some a) ex w =
  let enc := call_AudioToEmbeddings (audio_to_lang_embedding self) a (modules w) in
  let w1 := mk_world (stdout w ++ snd enc) (calls w ++ [to_audio_encoder a])%list
                     (snd (fst enc)) in
  match fst (fst enc) with
  | Ret a' => invoke (to_decoder t (Some a') ex)
                (call_AutoregressiveWrapper (decoder self) t (Some a') ex) w1
  | Raise e => (Raise e, w1)
  end.
Proof.
  unfold forward_body, self_audio_to_lang_embedding, self_decoder, bind.
  rewrite run_invoke.
  destruct (fst (fst (call_AudioToEmbeddings _ a (modules w)))); reflexivity.
Qed.

Lemma body_both (self : Gemini) (t i a : Tensor) ex w :
  forward_body self t (Some i) (Some a) ex w =
  let enc_a := call_AudioToEmbeddings (audio_to_lang_embedding self) a (modules w) in
  let w1 := mk_world (stdout w ++ snd enc_a) (calls w ++ [to_audio_encoder a])%list
                     (snd (fst enc_a)) in
  match fst (fst enc_a) with
  | Raise e => (Raise e, w1)
  | Ret a' =>
    let enc_i := call_ImageToTextEmbeddings (img_to_text_embedding self) i
                   (modules w1) in
    let w2 := mk_world (stdout w1 ++ snd enc_i)
                       (calls w1 ++ [to_img_encoder i])%list (snd (fst enc_i)) in
    match fst (fst enc_i) with
    | Raise e => (Raise e, w2)
    | Ret i' =>
      match torch_cat [t; i'; a'] with
      | Raise e => (Raise e, w2)
      | Ret fused =>
          invoke (to_decoder t (Some fused) ex)
            (call_AutoregressiveWrapper (decoder self) t (Some fused) ex) w2
      end
    end
  end.
Proof.
  unfold forward_body, self_audio_to_lang_embedding, self_img_to_text_embedding,
    self_decoder, bind, lift.
  rewrite run_invoke.
  destruct (fst (fst (call_AudioToEmbeddings _ a (modules w)))) as [a'|e];
    [|reflexivity].
  rewrite run_invoke.
  destruct (fst (fst (call_ImageToTextEmbeddings _ i _))) as [i'|e];
    [|reflexivity].
  destruct (torch_cat [t; i'; a']); reflexivity.
Qed.

(** ** Absent text *)

(** C10. With [text] absent (the default [None]), [forward] raises
    [AttributeError] at line 130, before the [try] and before any branch:
    nothing is printed, hence no line with the prefix of the handler, no
    sub-module is called and no state changes. *)
Theorem forward_absent_text_raises_unlogged
    (self : Gemini) (img audio : option Tensor) (ex : extra) (w : world) :
  forward self None img audio ex w =
    (Raise (AttributeError "'NoneType' object has no attribute 'shape'"), w)
  /\ stdout (snd (forward self None img audio ex w)) = stdout w
  /\ calls (snd (forward self None img audio ex w)) = calls w.
Proof. repeat split. Qed.

(** ** Text alone *)

(** C4. With [img] and [audio] absent, [forward] on a text is the
    decoder called on that text with the same extra arguments and no
    [prepend_embeds]: it returns, or raises, exactly what that call
    does, leaves the sub-modules as that call leaves them, and makes no
    other call (so no encoder runs). *)
Theorem forward_text_only_is_decoder
    (self : Gemini) (t : Tensor) (ex : extra) (w : world) :
  let run := forward self (Some t) None None ex w in
  let direct := call_AutoregressiveWrapper (decoder self) t None ex (modules w) in
  fst run = fst (fst direct)
  /\ modules (snd run) = snd (fst direct)
  /\ calls (snd run) = (calls w ++ [to_decoder t None ex])%list.
Proof.
  cbv zeta. rewrite forward_some, body_text_only, run_invoke.
  cbn [fst snd modules calls stdout shape_printed].
  destruct (fst (fst (call_AutoregressiveWrapper (decoder self) t None ex (modules w))));
    cbn [fst snd]; rewrite ?calls_handled, ?modules_handled; repeat split.
Qed.

(** ** One modality *)

(** C5. With only [img] present the image encoder is called exactly
    once and the audio encoder not at all; what the image encoder
    returns is the [prepend_embeds] of the one decoder call that follows,
    whose result is the result of [forward]; if the encoder raises,
    [forward] raises the same and the decoder is not called.  With only
    [audio] present the same holds with the encoders exchanged. *)
Theorem single_modality_encoder_once
    (self : Gemini) (t x : Tensor) (ex : extra) (w : world) :
  (let run := forward self (Some t) (Some x) None ex w in
   let enc := call_ImageToTextEmbeddings (img_to_text_embedding self) x (modules w) in
   count is_to_img_encoder (calls (snd run)) = count is_to_img_encoder (calls w) + 1
   /\ count is_to_audio_encoder (calls (snd run)) = count is_to_audio_encoder (calls w)
   /\ match fst (fst enc) with
      | Ret x' =>
          calls (snd run) =
            (calls w ++ [to_img_encoder x; to_decoder t (Some x') ex])%list
          /\ fst run = fst (fst (call_AutoregressiveWrapper (decoder self) t
                                   (Some x') ex (snd (fst enc))))
      | Raise e =>
          calls (snd run) = (calls w ++ [to_img_encoder x])%list
          /\ fst run = Raise e
      end)
  /\
  (let run := forward self (Some t) None (Some x) ex w in
   let enc := call_AudioToEmbeddings (audio_to_lang_embedding self) x (modules w) in
   count is_to_audio_encoder (calls (snd run)) = count is_to_audio_encoder (calls w) + 1
   /\ count is_to_img_encoder (calls (snd run)) = count is_to_img_encoder (calls w)
   /\ match fst (fst enc) with
      | Ret x' =>
          calls (snd run) =
            (calls w ++ [to_audio_encoder x; to_decoder t (Some x') ex])%list
          /\ fst run = fst (fst (call_AutoregressiveWrapper (decoder self) t
                                   (Some x') ex (snd (fst enc))))
      | Raise e =>
          calls (snd run) = (calls w ++ [to_audio_encoder x])%list
          /\ fst run = Raise e
      end).
Proof.
  cbv zeta. split.
  - rewrite forward_some, body_img_only. cbv zeta.
    destruct (fst (fst (call_ImageToTextEmbeddings _ x _))) as [x'|e].
    + rewrite run_invoke. cbn [modules calls stdout shape_printed].
      destruct (fst (fst (call_AutoregressiveWrapper _ t (Some x') ex _)));
        cbn [fst snd]; rewrite ?calls_handled; cbn [calls];
        rewrite <- app_assoc, !count_app; cbn; repeat split; lia.
    + cbn [fst snd]; rewrite ?calls_handled; cbn [calls shape_printed].
      rewrite !count_app; cbn; repeat split; lia.
  - rewrite forward_some, body_audio_only. cbv zeta.
    destruct (fst (fst (call_AudioToEmbeddings _ x _))) as [x'|e].
    + rewrite run_invoke. cbn [modules calls stdout shape_printed].
      destruct (fst (fst (call_AutoregressiveWrapper _ t (Some x') ex _)));
        cbn [fst snd]; rewrite ?calls_handled; cbn [calls];
        rewrite <- app_assoc, !count_app; cbn; repeat split; lia.
    + cbn [fst snd]; rewrite ?calls_handled; cbn [calls shape_printed].
      rewrite !count_app; cbn; repeat split; lia.
Qed.

(** ** Both modalities *)

(** What [torch.cat] returns holds the data of its arguments in the order
    they were given (legacy empty tensors left out). *)
Lemma torch_cat_data {S} (l : list (tensor S)) (f : tensor S) :
  torch_cat l = Ret f ->
  data f = List.concat (map (fun x => data x)
                          (filter (fun x => negb (should_skip x)) l)).
Proof.
  unfold torch_cat. destruct l as [|x l]; [discriminate|].
  destruct (existsb zero_dim (x :: l)); [discriminate|].
  destruct (filter (fun x0 => negb (should_skip x0)) (x :: l)) as [|t0 rest].
  - intros [= <-]. reflexivity.
  - destruct (negb (forallb _ rest)); [discriminate|].
    destruct (negb (forallb _ rest)); [discriminate|].
    intros [= <-]. reflexivity.
Qed.

(** C3. With [img] and [audio] both present, and both encoders and the
    concatenation returning: the audio encoder and the image encoder are
    each called exactly once, [torch.cat] is applied to the text, the
    image embedding and the audio embedding in that order, and the
    decoder is then called once with the original text and the fused
    tensor as [prepend_embeds]; its result is the result of [forward]. *)
Theorem both_modalities_fused
    (self : Gemini) (t i a : Tensor) (ex : extra) (w : world)
    (a' i' fused : Tensor) (s1 s2 : store) (o1 o2 : string) :
  call_AudioToEmbeddings (audio_to_lang_embedding self) a (modules w)
    = (Ret a', s1, o1) ->
  call_ImageToTextEmbeddings (img_to_text_embedding self) i s1
    = (Ret i', s2, o2) ->
  torch_cat [t; i'; a'] = Ret fused ->
  let run := forward self (Some t) (Some i) (Some a) ex w in
  calls (snd run) =
    (calls w ++ [to_audio_encoder a; to_img_encoder i;
                 to_decoder t (Some fused) ex])%list
  /\ count is_to_img_encoder (calls (snd run)) = count is_to_img_encoder (calls w) + 1
  /\ count is_to_audio_encoder (calls (snd run)) = count is_to_audio_encoder (calls w) + 1
  /\ count is_to_decoder (calls (snd run)) = count is_to_decoder (calls w) + 1
  /\ data fused = List.concat (map (fun x => data x)
                     (filter (fun x => negb (should_skip x)) [t; i'; a']))
  /\ fst run = fst (fst (call_AutoregressiveWrapper (decoder self) t (Some fused)
                           ex s2)).
Proof.
  intros Ha Hi Hcat. cbv zeta.
  rewrite forward_some, body_both. cbv zeta.
  cbn [modules calls stdout shape_printed]. rewrite Ha.
  cbn [fst snd modules calls stdout]. rewrite Hi.
  cbn [fst snd modules calls stdout]. rewrite Hcat, run_invoke.
  cbn [modules calls stdout].
  assert (Hcalls :
    (((calls w ++ [to_audio_encoder a]) ++ [to_img_encoder i]) ++
       [to_decoder t (Some fused) ex])%list =
    (calls w ++ [to_audio_encoder a; to_img_encoder i;
                 to_decoder t (Some fused) ex])%list).
  { now rewrite <- !app_assoc. }
  pose proof (torch_cat_data _ Hcat) as Hdata.
  destruct (fst (fst (call_AutoregressiveWrapper _ t (Some fused) ex s2)));
    cbn [fst snd]; rewrite ?calls_handled; cbn [calls]; rewrite Hcalls, !count_app;
    repeat split; try exact Hdata; cbn; lia.
Qed.

(** ** The four-way branch *)

(** C1. Which of the four paths a call takes is decided by the presence
    of [img] and [audio] alone, and each call takes exactly one: with
    both present (and the encoders and [torch.cat] returning) the
    decoder is called once with the concatenation as [prepend_embeds];
    with only [img], once with the encoded image; with only [audio],
    once with the encoded audio; with neither, once on the text with no
    [prepend_embeds] and after no other call.  In every case the result
    of that decoder call is the result of [forward]. *)
Theorem forward_four_way_dispatch
    (self : Gemini) (t : Tensor) (img audio : option Tensor) (ex : extra)
    (w : world) :
  let run := forward self (Some t) img audio ex w in
  match img, audio with
  | Some i, Some a =>
      forall (a' i' fused : Tensor) (s1 s2 : store) (o1 o2 : string),
        call_AudioToEmbeddings (audio_to_lang_embedding self) a (modules w)
          = (Ret a', s1, o1) ->
        call_ImageToTextEmbeddings (img_to_text_embedding self) i s1
          = (Ret i', s2, o2) ->
        torch_cat [t; i'; a'] = Ret fused ->
        calls (snd run) =
          (calls w ++ [to_audio_encoder a; to_img_encoder i;
                       to_decoder t (Some fused) ex])%list
        /\ fst run = fst (fst (call_AutoregressiveWrapper (decoder self) t
                                 (Some fused) ex s2))
  | Some i, None =>
      forall (i' : Tensor) (s1 : store) (o1 : string),
        call_ImageToTextEmbeddings (img_to_text_embedding self) i (modules w)
          = (Ret i', s1, o1) ->
        calls (snd run) =
          (calls w ++ [to_img_encoder i; to_decoder t (Some i') ex])%list
        /\ fst run = fst (fst (call_AutoregressiveWrapper (decoder self) t
                                 (Some i') ex s1))
  | None, Some a =>
      forall (a' : Tensor) (s1 : store) (o1 : string),
        call_AudioToEmbeddings (audio_to_lang_embedding self) a (modules w)
          = (Ret a', s1, o1) ->
        calls (snd run) =
          (calls w ++ [to_audio_encoder a; to_decoder t (Some a') ex])%list
        /\ fst run = fst (fst (call_AutoregressiveWrapper (decoder self) t
                                 (Some a') ex s1))
  | None, None =>
      calls (snd run) = (calls w ++ [to_decoder t None ex])%list
      /\ fst run = fst (fst (call_AutoregressiveWrapper (decoder self) t None
                               ex (modules w)))
  end.
Proof.
  cbv zeta. rewrite forward_some.
  destruct img as [i|], audio as [a|].
  - intros a' i' fused s1 s2 o1 o2 Ha Hi Hcat.
    rewrite body_both. cbv zeta. cbn [modules calls stdout shape_printed].
    rewrite Ha. cbn [fst snd modules calls stdout]. rewrite Hi.
    cbn [fst snd modules calls stdout]. rewrite Hcat, run_invoke.
    cbn [modules calls stdout].
    destruct (fst (fst (call_AutoregressiveWrapper _ t (Some fused) ex s2)));
      cbn [fst snd]; rewrite ?calls_handled; cbn [calls]; rewrite <- !app_assoc; split; reflexivity.
  - intros i' s1 o1 Hi.
    rewrite body_img_only. cbv zeta. cbn [modules calls stdout shape_printed].
    rewrite Hi. cbn [fst snd]. rewrite run_invoke. cbn [modules calls stdout].
    destruct (fst (fst (call_AutoregressiveWrapper _ t (Some i') ex s1)));
      cbn [fst snd]; rewrite ?calls_handled; cbn [calls]; rewrite <- !app_assoc; split; reflexivity.
  - intros a' s1 o1 Ha.
    rewrite body_audio_only. cbv zeta. cbn [modules calls stdout shape_printed].
    rewrite Ha. cbn [fst snd]. rewrite run_invoke. cbn [modules calls stdout].
    destruct (fst (fst (call_AutoregressiveWrapper _ t (Some a') ex s1)));
      cbn [fst snd]; rewrite ?calls_handled; cbn [calls]; rewrite <- !app_assoc; split; reflexivity.
  - rewrite body_text_only, run_invoke. cbn [modules calls stdout shape_printed].
    destruct (fst (fst (call_AutoregressiveWrapper _ t None ex (modules w))));
      cbn [fst snd]; rewrite ?calls_handled; cbn [calls]; split; reflexivity.
Qed.

(** ** Log and re-raise *)

Lemma failure_line_text (prefix : string) (e : exn) :
  failure_line prefix e = prefix ++ " " ++ exn_str e ++ nl.
Proof.
  unfold failure_line, print_text. cbn [String.concat].
  now rewrite !string_app_assoc.
Qed.

Lemma stdout_failure_logged (prefix : string) (e : exn) (w : world) :
  stdout (failure_logged prefix e w) =
  stdout w ++ prefix ++ " " ++ exn_str e ++ nl.
Proof. unfold failure_logged. cbn [stdout]. now rewrite failure_line_text. Qed.

Lemma handled_world (prefix : string) (e : exn) (out : string)
    (cs : list call) (m : store) :
  handled prefix e (mk_world out cs m) =
  mk_world (out ++ (if exn_is_Exception e
                    then prefix ++ " " ++ exn_str e ++ nl else "")) cs m.
Proof.
  unfold handled, failure_logged. cbn [stdout calls modules].
  destruct (exn_is_Exception e).
  - now rewrite failure_line_text.
  - now rewrite string_app_empty_r.
Qed.

Lemma stdout_handled (prefix : string) (e : exn) (w : world) :
  stdout (handled prefix e w) =
  stdout w ++ (if exn_is_Exception e then prefix ++ " " ++ exn_str e ++ nl
               else "").
Proof.
  unfold handled. destruct (exn_is_Exception e).
  - apply stdout_failure_logged.
  - now rewrite string_app_empty_r.
Qed.

(** C7, for a present text and instances of [Exception]. An exception
    raised inside the [try] of [forward] (by an encoder, by [torch.cat]
    or by the decoder) is raised again as the same exception; if it is
    an instance of [Exception] its line, after the prefix
    ["Failed in forward method: "], is printed first, and if it is not
    (a [KeyboardInterrupt], say) nothing is printed.  And when a call
    with a text raises, the exception is one raised inside the [try],
    with calls and sub-module state as the [try] body left them and
    standard output as just described. *)
Theorem forward_try_logs_and_reraises
    (self : Gemini) (t : Tensor) (img audio : option Tensor) (ex : extra)
    (w : world) :
  (forall e w1,
      forward_body self t img audio ex (shape_printed t w) = (Raise e, w1) ->
      fst (forward self (Some t) img audio ex w) = Raise e
      /\ stdout (snd (forward self (Some t) img audio ex w)) =
           stdout w1 ++
           (if exn_is_Exception e
            then "Failed in forward method: " ++ " " ++ exn_str e ++ nl
            else ""))
  /\
  (forall e w',
      forward self (Some t) img audio ex w = (Raise e, w') ->
      exists w1,
        forward_body self t img audio ex (shape_printed t w) = (Raise e, w1)
        /\ stdout w' =
             stdout w1 ++
             (if exn_is_Exception e
              then "Failed in forward method: " ++ " " ++ exn_str e ++ nl
              else "")
        /\ calls w' = calls w1
        /\ modules w' = modules w1).
Proof.
  split.
  - intros e w1 Hbody. rewrite forward_some, Hbody. cbn [fst snd].
    split; [reflexivity | apply stdout_handled].
  - intros e w' Hrun. rewrite forward_some in Hrun.
    destruct (forward_body self t img audio ex (shape_printed t w))
      as [[y|e1] w1]; [discriminate|].
    injection Hrun as -> <-. exists w1.
    split; [reflexivity|].
    split; [apply stdout_handled|].
    split; [apply calls_handled | apply modules_handled].
Qed.

(** The handler of [__init__]: an exception raised by the guarded body
    is raised again as the same exception, after its line under the
    prefix ["Failed to initialize gemini: "] if it is an instance of
    [Exception]; and whenever [__init__] raises, that is what
    happened. *)
Lemma init_logs_and_reraises (hp : hparams) (ex : extra) (w : world) :
  (forall e w1,
      init_body hp ex w = (Raise e, w1) ->
      fst (Gemini_init hp ex w) = Raise e
      /\ stdout (snd (Gemini_init hp ex w)) =
           stdout w1 ++
           (if exn_is_Exception e
            then "Failed to initialize gemini: " ++ " " ++ exn_str e ++ nl
            else ""))
  /\
  (forall e w',
      Gemini_init hp ex w = (Raise e, w') ->
      exists w1,
        init_body hp ex w = (Raise e, w1)
        /\ stdout w' =
             stdout w1 ++
             (if exn_is_Exception e
              then "Failed to initialize gemini: " ++ " " ++ exn_str e ++ nl
              else "")
        /\ calls w' = calls w1
        /\ modules w' = modules w1).
Proof.
  split.
  - intros e w1 Hbody. rewrite init_unfold, Hbody. cbn [fst snd].
    split; [reflexivity | apply stdout_handled].
  - intros e w' Hrun. rewrite init_unfold in Hrun.
    destruct (init_body hp ex w) as [[g|e1] w1]; [discriminate|].
    injection Hrun as -> <-. exists w1.
    split; [reflexivity|].
    split; [apply stdout_handled|].
    split; [apply calls_handled | apply modules_handled].
Qed.

(** ** Frame *)

Lemma invoke_read_only {A} (c : call) (f : ext store A) (w : world) :
  read_only f -> modules (snd (invoke c f w)) = modules w.
Proof. intros Hf. rewrite run_invoke. cbn [snd modules]. apply Hf. Qed.

Lemma forward_body_modules
    (self : Gemini) (t : Tensor) (img audio : option Tensor) (ex : extra)
    (w : world) :
  (forall x p ex', read_only (call_AutoregressiveWrapper (decoder self) x p ex')) ->
  (forall x, read_only (call_ImageToTextEmbeddings (img_to_text_embedding self) x)) ->
  (forall x, read_only (call_AudioToEmbeddings (audio_to_lang_embedding self) x)) ->
  modules (snd (forward_body self t img audio ex w)) = modules w.
Proof.
  intros Hdec Himg Haud.
  destruct img as [i|], audio as [a|].
  - rewrite body_both. cbv zeta.
    destruct (fst (fst (call_AudioToEmbeddings _ a (modules w)))) as [a'|e];
      [|cbn [snd modules]; apply Haud].
    cbn [modules].
    destruct (fst (fst (call_ImageToTextEmbeddings _ i _))) as [i'|e].
    + destruct (torch_cat [t; i'; a']) as [fused|e].
      * rewrite invoke_read_only by apply Hdec. cbn [modules].
        rewrite Himg. apply Haud.
      * cbn [snd modules]. rewrite Himg. apply Haud.
    + cbn [snd modules]. rewrite Himg. apply Haud.
  - rewrite body_img_only. cbv zeta.
    destruct (fst (fst (call_ImageToTextEmbeddings _ i (modules w)))) as [i'|e].
    + rewrite invoke_read_only by apply Hdec. cbn [modules]. apply Himg.
    + cbn [snd modules]. apply Himg.
  - rewrite body_audio_only. cbv zeta.
    destruct (fst (fst (call_AudioToEmbeddings _ a (modules w)))) as [a'|e].
    + rewrite invoke_read_only by apply Hdec. cbn [modules]. apply Haud.
    + cbn [snd modules]. apply Haud.
  - rewrite body_text_only. apply invoke_read_only, Hdec.
Qed.

(** As long as calling the decoder and the two encoders leaves their
    state as it was, the state of the sub-modules after a call of
    [forward] is the state before it, on each of the four paths, with
    or without a text, and whether the call returns or raises. *)
Lemma forward_leaves_modules_unchanged
    (self : Gemini) (text img audio : option Tensor) (ex : extra) (w : world) :
  (forall x p ex', read_only (call_AutoregressiveWrapper (decoder self) x p ex')) ->
  (forall x, read_only (call_ImageToTextEmbeddings (img_to_text_embedding self) x)) ->
  (forall x, read_only (call_AudioToEmbeddings (audio_to_lang_embedding self) x)) ->
  modules (snd (forward self text img audio ex w)) = modules w.
Proof.
  intros Hdec Himg Haud.
  destruct text as [t|]; [|reflexivity].
  rewrite forward_some.
  pose proof (forward_body_modules self t img audio ex (shape_printed t w)
                Hdec Himg Haud) as Hbody.
  destruct (forward_body self t img audio ex (shape_printed t w)) as [[y|e] w1];
    cbn [snd] in *; rewrite ?modules_handled; exact Hbody.
Qed.

End Properties.

(* ================================================================== *)
(** * The axis of the fusion *)

Lemma shape_eqb_true_iff (s1 s2 : list nat) : shape_eqb s1 s2 = true <-> s1 = s2.
Proof.
  unfold shape_eqb. destruct (list_eq_dec Nat.eq_dec s1 s2); split;
    congruence.
Qed.

Lemma should_skip_many {S} (x : tensor S) (b n : nat) (rest : list nat) :
  shape x = b :: n :: rest -> should_skip x = false.
Proof. unfold should_skip. intros ->. now destruct b. Qed.

(** [torch.cat] on three tensors of three dimensions: the sizes of the
    second and third dimension have to agree, the sizes of the first
    add up. *)
Lemma torch_cat_3d {S} (x y z : tensor S) (b1 n1 d1 b2 n2 d2 b3 n3 d3 : nat) :
  shape x = [b1; n1; d1] -> shape y = [b2; n2; d2] -> shape z = [b3; n3; d3] ->
  torch_cat [x; y; z] =
  if shape_eqb [n2; d2] [n1; d1] && shape_eqb [n3; d3] [n1; d1] then
    Ret (mk_tensor [b1 + b2 + b3; n1; d1] (data x ++ data y ++ data z)%list)
  else Raise (RuntimeError "Sizes of tensors must match except in dimension 0").
Proof.
  intros Hx Hy Hz. unfold torch_cat.
  cbn [existsb filter].
  rewrite (should_skip_many _ Hx), (should_skip_many _ Hy), (should_skip_many _ Hz).
  unfold zero_dim. rewrite Hx, Hy, Hz.
  cbn [orb negb forallb map list_sum fold_right List.concat].
  rewrite Hx, Hy, Hz.
  cbn [List.length tl hd Nat.eqb andb negb]. rewrite !andb_true_r.
  destruct (shape_eqb [n2; d2] [n1; d1]); cbn [andb negb]; [|reflexivity].
  destruct (shape_eqb [n3; d3] [n1; d1]); cbn [andb negb]; [|reflexivity].
  rewrite app_nil_r, Nat.add_0_r, Nat.add_assoc. reflexivity.
Qed.

(** Batch sizes are not compared: with equal sequence length and hidden
    size the fusion returns, whatever the three batch sizes. *)
Lemma torch_cat_batches_add {S} (x y z : tensor S) (b1 b2 b3 n d : nat) :
  shape x = [b1; n; d] -> shape y = [b2; n; d] -> shape z = [b3; n; d] ->
  torch_cat [x; y; z] =
    Ret (mk_tensor [b1 + b2 + b3; n; d] (data x ++ data y ++ data z)%list).
Proof.
  intros Hx Hy Hz. rewrite (torch_cat_3d x y z Hx Hy Hz).
  assert (H : shape_eqb [n; d] [n; d] = true) by now apply shape_eqb_true_iff.
  now rewrite H.
Qed.

(** A differing sequence length or hidden size makes the fusion raise. *)
Lemma torch_cat_inner_mismatch {S} (x y z : tensor S)
    (b1 n1 d1 b2 n2 d2 b3 n3 d3 : nat) :
  shape x = [b1; n1; d1] -> shape y = [b2; n2; d2] -> shape z = [b3; n3; d3] ->
  [n2; d2] <> [n1; d1] \/ [n3; d3] <> [n1; d1] ->
  torch_cat [x; y; z] =
    Raise (RuntimeError "Sizes of tensors must match except in dimension 0").
Proof.
  intros Hx Hy Hz Hne. rewrite (torch_cat_3d x y z Hx Hy Hz).
  destruct (shape_eqb [n2; d2] [n1; d1]) eqn:E2; [|reflexivity].
  destruct (shape_eqb [n3; d3] [n1; d1]) eqn:E3; [|reflexivity].
  apply shape_eqb_true_iff in E2, E3. destruct Hne; contradiction.
Qed.

(** A text of token ids, of shape (batch, sequence), cannot be fused
    with embeddings of three dimensions at all. *)
Lemma torch_cat_rank_mismatch {S} (x y z : tensor S) (b1 n1 b2 n2 d2 : nat) :
  shape x = [b1; n1] -> shape y = [b2; n2; d2] ->
  zero_dim z = false ->
  torch_cat [x; y; z] =
    Raise (RuntimeError "Tensors must have same number of dimensions").
Proof.
  intros Hx Hy Hz. unfold torch_cat.
  cbn [existsb filter].
  rewrite (should_skip_many _ Hx), (should_skip_many _ Hy), Hz.
  unfold zero_dim. rewrite Hx, Hy. cbn [orb negb].
  destruct (should_skip z); cbn [negb forallb]; rewrite Hx, Hy;
    reflexivity.
Qed.

(** The fusion keeps tensors well shaped. *)
Lemma torch_cat_3d_well_shaped {S} (x y z f : tensor S) (b1 b2 b3 n d : nat) :
  shape x = [b1; n; d] -> shape y = [b2; n; d] -> shape z = [b3; n; d] ->
  well_shaped x -> well_shaped y -> well_shaped z ->
  torch_cat [x; y; z] = Ret f -> well_shaped f.
Proof.
  intros Hx Hy Hz Wx Wy Wz.
  rewrite (torch_cat_batches_add x y z Hx Hy Hz). intros [= <-].
  unfold well_shaped in *. cbn [data shape].
  rewrite !length_app, Wx, Wy, Wz, Hx, Hy, Hz. cbn [numel fold_right]. lia.
Qed.

Section Fusion.

Context {C : Collaborators}.

Local Abbreviation Tensor := (tensor scalar).

(** X9. With both modalities present and embeddings that agree in sequence
    length and hidden size, the decoder receives a [prepend_embeds]
    whose first (batch) size is the sum of the three batch sizes and
    whose sequence length is that of each argument. *)
Lemma forward_fuses_batches
    (self : Gemini) (t i a : Tensor) (ex : extra) (w : world)
    (a' i' : Tensor) (s1 s2 : store) (o1 o2 : string) (b1 b2 b3 n d : nat) :
  call_AudioToEmbeddings (audio_to_lang_embedding self) a (modules w)
    = (Ret a', s1, o1) ->
  call_ImageToTextEmbeddings (img_to_text_embedding self) i s1
    = (Ret i', s2, o2) ->
  shape t = [b1; n; d] -> shape i' = [b2; n; d] -> shape a' = [b3; n; d] ->
  calls (snd (forward self (Some t) (Some i) (Some a) ex w)) =
    (calls w ++
     [to_audio_encoder a; to_img_encoder i;
      to_decoder t
        (Some (mk_tensor [b1 + b2 + b3; n; d] (data t ++ data i' ++ data a')%list))
        ex])%list.
Proof.
  intros Ha Hi Ht Hi' Ha'.
  rewrite forward_some, body_both. cbv zeta.
  cbn [modules calls stdout shape_printed]. rewrite Ha.
  cbn [fst snd modules calls stdout]. rewrite Hi.
  cbn [fst snd modules calls stdout].
  rewrite (torch_cat_batches_add t i' a' Ht Hi' Ha'), run_invoke.
  cbn [modules calls stdout].
  destruct (fst (fst (call_AutoregressiveWrapper _ t _ ex s2)));
    cbn [fst snd]; rewrite ?calls_handled; cbn [calls]; now rewrite <- !app_assoc.
Qed.

(** X7. With both modalities present and embeddings that differ in sequence
    length or hidden size, [torch.cat] raises, the decoder is not
    called, and [forward] logs and raises that error. *)
Lemma forward_inner_mismatch_raises
    (self : Gemini) (t i a : Tensor) (ex : extra) (w : world)
    (a' i' : Tensor) (s1 s2 : store) (o1 o2 : string)
    (b1 n1 d1 b2 n2 d2 b3 n3 d3 : nat) :
  call_AudioToEmbeddings (audio_to_lang_embedding self) a (modules w)
    = (Ret a', s1, o1) ->
  call_ImageToTextEmbeddings (img_to_text_embedding self) i s1
    = (Ret i', s2, o2) ->
  shape t = [b1; n1; d1] -> shape i' = [b2; n2; d2] -> shape a' = [b3; n3; d3] ->
  [n2; d2] <> [n1; d1] \/ [n3; d3] <> [n1; d1] ->
  let e := RuntimeError "Sizes of tensors must match except in dimension 0" in
  forward self (Some t) (Some i) (Some a) ex w =
    (Raise e,
     failure_logged forward_prefix e
       (mk_world (((stdout w ++ print_text ["Text shape: " ++ str_Size (shape t)])
                   ++ o1) ++ o2)
                 ((calls w ++ [to_audio_encoder a]) ++ [to_img_encoder i])%list
                 s2)).
Proof.
  intros Ha Hi Ht Hi' Ha' Hne. cbv zeta.
  rewrite forward_some, body_both. cbv zeta.
  cbn [modules calls stdout shape_printed]. rewrite Ha.
  cbn [fst snd modules calls stdout]. rewrite Hi.
  cbn [fst snd modules calls stdout].
  now rewrite (torch_cat_inner_mismatch t i' a' Ht Hi' Ha' Hne).
Qed.


End Fusion.

(* ================================================================== *)
(** * Construction, stage by stage *)

Section Construction.

Context {C : Collaborators}.

(** Closes the case of a constructor that raised. *)
Ltac closes_failure :=
  cbn [fst snd]; rewrite stdout_handled, calls_handled;
  cbn [stdout calls modules];
  rewrite <- ?app_assoc, ?string_app_assoc;
  repeat split.

(** C8, for instances of [Exception]. [__init__] builds the attention
    layers, the transformer, the wrapper, the image encoder and the
    audio encoder in this order, all under one [try].  Whichever of
    these constructors raises first, [__init__] raises that same
    exception (so the caller gets no model) and no later constructor is
    called; if the exception is an instance of [Exception], the line
    made of the prefix ["Failed to initialize gemini: "] and the
    exception is the last thing printed, and if it is not, [__init__]
    prints nothing.  If all five return, [__init__] returns the model
    made of their results and prints nothing of its own. *)
Theorem init_logs_and_reraises_first_failure
    (hp : hparams) (ex : extra) (w : world) :
  let run := Gemini_init hp ex w in
  let dkw := mk_Decoder_kwargs (dim hp) (depth hp) (dim_head hp) (heads hp)
               (attn_flash hp) (attn_kv_heads hp) (qk_norm hp)
               (attn_qk_norm hp) (attn_qk_norm_dim_scale hp) in
  let ikw := mk_ImageToTextEmbeddings_kwargs (patches hp) (dim hp)
               (max_seq_len hp) in
  let akw := mk_AudioToEmbeddings_kwargs (audio_seq_len hp) (max_seq_len hp) in
  let failed e out cs :=
    fst run = Raise e
    /\ stdout (snd run) =
         (stdout w ++ out) ++
         (if exn_is_Exception e
          then "Failed to initialize gemini: " ++ " " ++ exn_str e ++ nl
          else "")
    /\ calls (snd run) = (calls w ++ cs)%list in
  let r1 := Decoder dkw ex (modules w) in
  match fst (fst r1) with
  | Raise e => failed e (snd r1) [new_Decoder dkw ex]
  | Ret layers =>
    let tkw := mk_Transformer_kwargs (num_tokens hp) (max_seq_len hp)
                 (use_abs_pos_emb hp) layers in
    let r2 := Transformer tkw (snd (fst r1)) in
    match fst (fst r2) with
    | Raise e => failed e (snd r1 ++ snd r2) [new_Decoder dkw ex; new_Transformer tkw]
    | Ret net =>
      let r3 := AutoregressiveWrapper net (snd (fst r2)) in
      match fst (fst r3) with
      | Raise e =>
          failed e (snd r1 ++ snd r2 ++ snd r3)
            [new_Decoder dkw ex; new_Transformer tkw; new_AutoregressiveWrapper net]
      | Ret wrapped =>
        let r4 := ImageToTextEmbeddings ikw ex (snd (fst r3)) in
        match fst (fst r4) with
        | Raise e =>
            failed e (snd r1 ++ snd r2 ++ snd r3 ++ snd r4)
              [new_Decoder dkw ex; new_Transformer tkw;
               new_AutoregressiveWrapper net; new_ImageToTextEmbeddings ikw ex]
        | Ret img_enc =>
          let r5 := AudioToEmbeddings akw ex (snd (fst r4)) in
          match fst (fst r5) with
          | Raise e =>
              failed e (snd r1 ++ snd r2 ++ snd r3 ++ snd r4 ++ snd r5)
                [new_Decoder dkw ex; new_Transformer tkw;
                 new_AutoregressiveWrapper net;
                 new_ImageToTextEmbeddings ikw ex; new_AudioToEmbeddings akw ex]
          | Ret audio_enc =>
              fst run = Ret (mk_Gemini net wrapped img_enc audio_enc)
              /\ stdout (snd run) =
                   stdout w ++ snd r1 ++ snd r2 ++ snd r3 ++ snd r4 ++ snd r5
              /\ modules (snd run) = snd (fst r5)
          end
        end
      end
    end
  end.
Proof.
  cbv zeta. rewrite init_unfold. unfold init_body, bind.
  rewrite run_invoke.
  destruct (fst (fst (Decoder _ ex (modules w)))) as [layers|e]; [|closes_failure].
  rewrite run_invoke. cbn [modules calls stdout].
  destruct (fst (fst (Transformer _ _))) as [net|e]; [|closes_failure].
  rewrite run_invoke. cbn [modules calls stdout].
  destruct (fst (fst (AutoregressiveWrapper net _))) as [wrapped|e];
    [|closes_failure].
  rewrite run_invoke. cbn [modules calls stdout].
  destruct (fst (fst (ImageToTextEmbeddings _ ex _))) as [img_enc|e];
    [|closes_failure].
  rewrite run_invoke. cbn [modules calls stdout].
  destruct (fst (fst (AudioToEmbeddings _ ex _))) as [audio_enc|e];
    [|closes_failure].
  cbn. now rewrite ?string_app_assoc.
Qed.

End Construction.

(* ================================================================== *)
(** * Runs on the test doubles *)

Module Runs.

Import Stub.

Local Abbreviation run_forward := (forward (C := collaborators) model).

(** [forward_four_way_dispatch] on a call with text, image and audio. *)
Lemma forward_four_way_dispatch_witness :
  calls (snd (run_forward (Some sample_text) (Some sample_img)
                (Some sample_audio) tt w0)) =
    [to_audio_encoder (C := collaborators) sample_audio;
     to_img_encoder (C := collaborators) sample_img;
     to_decoder (C := collaborators) sample_text (Some sample_fused) tt]
  /\ fst (run_forward (Some sample_text) (Some sample_img)
            (Some sample_audio) tt w0) = Ret sample_text.
Proof.
  exact (forward_four_way_dispatch (C := collaborators) model sample_text
           (Some sample_img) (Some sample_audio) tt w0
           sample_audio sample_img sample_fused 5 5 "" ""
           eq_refl eq_refl eq_refl).
Defined.

(** [both_modalities_fused] on the same call. *)
Lemma both_modalities_fused_witness :
  calls (snd (run_forward (Some sample_text) (Some sample_img)
                (Some sample_audio) tt w0)) =
    [to_audio_encoder (C := collaborators) sample_audio;
     to_img_encoder (C := collaborators) sample_img;
     to_decoder (C := collaborators) sample_text (Some sample_fused) tt]
  /\ count is_to_img_encoder
       (calls (snd (run_forward (Some sample_text) (Some sample_img)
                      (Some sample_audio) tt w0))) = 1
  /\ count is_to_audio_encoder
       (calls (snd (run_forward (Some sample_text) (Some sample_img)
                      (Some sample_audio) tt w0))) = 1
  /\ count is_to_decoder
       (calls (snd (run_forward (Some sample_text) (Some sample_img)
                      (Some sample_audio) tt w0))) = 1
  /\ data sample_fused =
       (data sample_text ++ data sample_img ++ data sample_audio)%list
  /\ fst (run_forward (Some sample_text) (Some sample_img)
            (Some sample_audio) tt w0) = Ret sample_text.
Proof.
  exact (both_modalities_fused (C := collaborators) model sample_text
           sample_img sample_audio tt w0 (a' := sample_audio)
           (i' := sample_img) (fused := sample_fused)
           (s1 := 5) (s2 := 5) (o1 := "") (o2 := "")
           eq_refl eq_refl eq_refl).
Defined.

(** [forward_try_logs_and_reraises] on a call whose image encoder
    raises a [RuntimeError], and on a call whose decoder is
    interrupted. *)
Lemma forward_try_logs_and_reraises_witness :
  let e := RuntimeError "expected a batched input" in
  let w1 := mk_world (C := collaborators)
              ("Text shape: torch.Size([1, 2, 2])" ++ nl)
              [to_img_encoder (C := collaborators) scalar_img] 5 in
  (fst (run_forward (Some sample_text) (Some scalar_img) None tt w0) = Raise e
   /\ stdout (snd (run_forward (Some sample_text) (Some scalar_img) None tt w0)) =
        stdout w1 ++ "Failed in forward method: " ++ " " ++ exn_str e ++ nl)
  /\
  (exists w1' : world (C := collaborators),
      forward_body (C := collaborators) model sample_text (Some scalar_img)
        None tt (shape_printed (C := collaborators) sample_text w0) = (Raise e, w1')
      /\ stdout (snd (run_forward (Some sample_text) (Some scalar_img) None tt w0)) =
           stdout w1' ++ "Failed in forward method: " ++ " " ++ exn_str e ++ nl
      /\ calls (snd (run_forward (Some sample_text) (Some scalar_img) None tt w0)) =
           calls w1'
      /\ modules (snd (run_forward (Some sample_text) (Some scalar_img) None tt w0)) =
           modules w1')
  /\
  (fst (forward (C := Interrupted.collaborators) Interrupted.model
          (Some sample_text) None None tt Interrupted.w0)
     = Raise Interrupted.KeyboardInterrupt
   /\ stdout (snd (forward (C := Interrupted.collaborators) Interrupted.model
                     (Some sample_text) None None tt Interrupted.w0)) =
        ("Text shape: torch.Size([1, 2, 2])" ++ nl) ++ "").
Proof.
  cbv zeta. split; [|split].
  - exact (proj1 (forward_try_logs_and_reraises (C := collaborators) model
                    sample_text (Some scalar_img) None tt w0) _ _ eq_refl).
  - exact (proj2 (forward_try_logs_and_reraises (C := collaborators) model
                    sample_text (Some scalar_img) None tt w0) _ _ eq_refl).
  - exact (proj1 (forward_try_logs_and_reraises (C := Interrupted.collaborators)
                    Interrupted.model sample_text None None tt Interrupted.w0)
             _ (snd (forward_body (C := Interrupted.collaborators)
                       Interrupted.model sample_text None None tt
                       (shape_printed (C := Interrupted.collaborators)
                          sample_text Interrupted.w0)))
             eq_refl).
Defined.

(** [init_logs_and_reraises] on hyperparameters for which the image
    encoder cannot be built. *)
Lemma init_logs_and_reraises_witness :
  let e := ValueError "patch_size must be positive" in
  (fst (Gemini_init (C := collaborators) no_patches tt w0) = Raise e
   /\ stdout (snd (Gemini_init (C := collaborators) no_patches tt w0)) =
        "" ++ "Failed to initialize gemini: " ++ " " ++ exn_str e ++ nl)
  /\
  (exists w1 : world (C := collaborators),
      init_body (C := collaborators) no_patches tt w0 = (Raise e, w1)
      /\ stdout (snd (Gemini_init (C := collaborators) no_patches tt w0)) =
           stdout w1 ++ "Failed to initialize gemini: " ++ " " ++ exn_str e ++ nl
      /\ calls (snd (Gemini_init (C := collaborators) no_patches tt w0)) = calls w1
      /\ modules (snd (Gemini_init (C := collaborators) no_patches tt w0)) = modules w1).
Proof.
  cbv zeta. split.
  - exact (proj1 (init_logs_and_reraises (C := collaborators) no_patches tt w0)
             _ (snd (init_body (C := collaborators) no_patches tt w0)) eq_refl).
  - exact (proj2 (init_logs_and_reraises (C := collaborators) no_patches tt w0)
             _ _ eq_refl).
Defined.

(** [forward_leaves_modules_unchanged] on the test doubles, none of
    whose calls touches the state. *)
Lemma forward_leaves_modules_unchanged_witness :
  modules (snd (run_forward (Some sample_text) (Some sample_img)
                  (Some sample_audio) tt w0)) = 5.
Proof.
  apply (forward_leaves_modules_unchanged (C := collaborators) model
           (Some sample_text) (Some sample_img) (Some sample_audio) tt w0).
  - intros x p ex' s. reflexivity.
  - intros x s. cbn. unfold encode. destruct (zero_dim _); reflexivity.
  - intros x s. cbn. unfold encode. destruct (zero_dim _); reflexivity.
Defined.

(** C7 as the specification words it does not hold: called without a
    text, [forward] raises and nothing at all has been printed. *)
Lemma absent_text_escapes_unlogged :
  ~ (forall (text img audio : option (tensor Z)) (w : world) (e : exn) (w' : world),
        run_forward text img audio tt w = (Raise e, w') ->
        exists out,
          stdout w' =
          stdout w ++ out ++ "Failed in forward method: " ++ " " ++ exn_str e ++ nl).
Proof.
  intros H.
  destruct (H None None None w0 _ _ eq_refl) as [out Hout].
  cbn [stdout w0] in Hout. destruct out; discriminate Hout.
Qed.

(** C2 on the code. With embeddings of one batch and hidden size but of
    2, 3 and 1 positions, which a concatenation along the sequence axis
    would fuse into 6 positions, the fusion raises and the decoder is
    never reached; with three embeddings of shape (1, 2, 2) the decoder
    receives a fused tensor of shape (3, 2, 2): the batch sizes have
    been added and the sequence length is still 2. *)
Theorem fusion_runs_along_batch_axis :
  let text := full [1; 2; 2] 7%Z in
  (let run := run_forward (Some text) (Some (full [1; 3; 2] 1%Z))
                (Some (full [1; 1; 2] 2%Z)) tt w0 in
   fst run =
     Raise (RuntimeError "Sizes of tensors must match except in dimension 0")
   /\ count is_to_decoder (calls (snd run)) = 0)
  /\
  (let run := run_forward (Some text) (Some (full [1; 2; 2] 1%Z))
                (Some (full [1; 2; 2] 2%Z)) tt w0 in
   calls (snd run) =
     [to_audio_encoder (C := collaborators) (full [1; 2; 2] 2%Z);
      to_img_encoder (C := collaborators) (full [1; 2; 2] 1%Z);
      to_decoder (C := collaborators) text
        (Some (mk_tensor [3; 2; 2] [7; 7; 7; 7; 1; 1; 1; 1; 2; 2; 2; 2]%Z)) tt]).
Proof. cbv zeta. split; [split|]; vm_compute; reflexivity. Qed.

(** With the test doubles, whose decoder takes any [prepend_embeds],
    embeddings of batch sizes 1, 2 and 3 (equal in sequence length and
    hidden size) are fused without complaint: the call returns, the
    only line printed is the shape of the text, and the decoder has
    been handed a fused tensor of batch size 6. *)
Theorem batch_mismatch_is_fused_silently :
  let run := run_forward (Some sample_text) (Some sample_img)
               (Some sample_audio) tt w0 in
  fst run = Ret sample_text
  /\ stdout (snd run) = "Text shape: torch.Size([1, 2, 2])" ++ nl
  /\ calls (snd run) =
       [to_audio_encoder (C := collaborators) sample_audio;
        to_img_encoder (C := collaborators) sample_img;
        to_decoder (C := collaborators) sample_text (Some sample_fused) tt]
  /\ shape sample_text = [1; 2; 2] /\ shape sample_img = [2; 2; 2]
  /\ shape sample_audio = [3; 2; 2] /\ shape sample_fused = [6; 2; 2].
Proof. cbv zeta. repeat split. Qed.

End Runs.

(* ================================================================== *)
(** * Further properties of [forward] *)

Section Discipline.

Context {C : Collaborators}.

Local Abbreviation Tensor := (tensor scalar).

Ltac settle :=
  repeat split; cbn; try lia; try reflexivity;
  try (repeat (constructor; cbn; auto); fail).

(** The calls of the guarded body, for every way it can run. *)
Lemma forward_body_calls
    (self : Gemini) (t : Tensor) (img audio : option Tensor) (ex : extra)
    (w : world) :
  exists new,
    calls (snd (forward_body self t img audio ex w)) = (calls w ++ new)%list
    /\ Forall (forward_call_ok (Some t) img audio ex) new
    /\ List.length new <= 3
    /\ count is_to_decoder (removelast new) = 0
    /\ count is_to_img_encoder new <= 1
    /\ count is_to_audio_encoder new <= 1
    /\ match fst (forward_body self t img audio ex w) with
       | Ret y =>
           exists p s,
             new = (removelast new ++ [to_decoder t p ex])%list
             /\ fst (fst (call_AutoregressiveWrapper (decoder self) t p ex s)) = Ret y
       | Raise _ => True
       end.
Proof.
  destruct img as [i|], audio as [a|].
  - rewrite body_both. cbv zeta.
    destruct (fst (fst (call_AudioToEmbeddings _ a (modules w)))) as [a'|e].
    2:{ exists [to_audio_encoder a]. cbn. settle. }
    cbn [modules].
    destruct (fst (fst (call_ImageToTextEmbeddings _ i _))) as [i'|e].
    2:{ exists [to_audio_encoder a; to_img_encoder i]. cbn.
        rewrite <- app_assoc. settle. }
    destruct (torch_cat [t; i'; a']) as [fused|e].
    2:{ exists [to_audio_encoder a; to_img_encoder i]. cbn.
        rewrite <- app_assoc. settle. }
    rewrite run_invoke. cbn [fst snd calls modules].
    exists [to_audio_encoder a; to_img_encoder i; to_decoder t (Some fused) ex].
    rewrite <- !app_assoc. cbn. settle.
    destruct (fst (fst (call_AutoregressiveWrapper _ t (Some fused) ex _))) eqn:E;
      [|exact I].
    eexists _, _. split; [reflexivity | exact E].
  - rewrite body_img_only. cbv zeta.
    destruct (fst (fst (call_ImageToTextEmbeddings _ i (modules w)))) as [i'|e].
    2:{ exists [to_img_encoder i]. cbn. settle. }
    rewrite run_invoke. cbn [fst snd calls modules].
    exists [to_img_encoder i; to_decoder t (Some i') ex].
    rewrite <- !app_assoc. cbn. settle.
    destruct (fst (fst (call_AutoregressiveWrapper _ t (Some i') ex _))) eqn:E;
      [|exact I].
    eexists _, _. split; [reflexivity | exact E].
  - rewrite body_audio_only. cbv zeta.
    destruct (fst (fst (call_AudioToEmbeddings _ a (modules w)))) as [a'|e].
    2:{ exists [to_audio_encoder a]. cbn. settle. }
    rewrite run_invoke. cbn [fst snd calls modules].
    exists [to_audio_encoder a; to_decoder t (Some a') ex].
    rewrite <- !app_assoc. cbn. settle.
    destruct (fst (fst (call_AutoregressiveWrapper _ t (Some a') ex _))) eqn:E;
      [|exact I].
    eexists _, _. split; [reflexivity | exact E].
  - rewrite body_text_only, run_invoke. cbn [fst snd calls modules].
    exists [to_decoder t None ex]. cbn. settle.
    destruct (fst (fst (call_AutoregressiveWrapper _ t None ex _))) eqn:E;
      [|exact I].
    eexists _, _. split; [reflexivity | exact E].
Qed.

(** X1. Whatever its arguments and however it ends, [forward] only adds
    to the calls made so far, and every call it adds is allowed: the
    decoder is called with the caller's own text and extra arguments,
    and with a [prepend_embeds] exactly when [exists(img)] or
    [exists(audio)]; an encoder is called with the caller's own tensor
    of its modality; no sub-module is constructed. *)
Theorem forward_calls_allowed
    (self : Gemini) (text img audio : option Tensor) (ex : extra) (w : world) :
  exists new,
    calls (snd (forward self text img audio ex w)) = (calls w ++ new)%list
    /\ Forall (forward_call_ok text img audio ex) new.
Proof.
  destruct text as [t|].
  - destruct (forward_body_calls self t img audio ex (shape_printed t w))
      as (new & Hcalls & Hok & _).
    exists new. split; [|exact Hok].
    rewrite forward_some.
    destruct (forward_body self t img audio ex (shape_printed t w)) as [[y|e] w1];
      cbn [snd] in *; rewrite ?calls_handled; exact Hcalls.
  - exists []. cbn. rewrite app_nil_r. split; [reflexivity | constructor].
Qed.

(** X2. A call of [forward] makes at most three calls to sub-modules:
    each encoder at most once, and the decoder at most once and only as
    the last of them. *)
Theorem forward_call_bounds
    (self : Gemini) (text img audio : option Tensor) (ex : extra) (w : world) :
  exists new,
    calls (snd (forward self text img audio ex w)) = (calls w ++ new)%list
    /\ List.length new <= 3
    /\ count is_to_decoder (removelast new) = 0
    /\ count is_to_decoder new <= 1
    /\ count is_to_img_encoder new <= 1
    /\ count is_to_audio_encoder new <= 1.
Proof.
  destruct text as [t|].
  - destruct (forward_body_calls self t img audio ex (shape_printed t w))
      as (new & Hcalls & _ & Hlen & Hlast & Himg & Haud & _).
    exists new. split.
    + rewrite forward_some.
      destruct (forward_body self t img audio ex (shape_printed t w))
        as [[y|e] w1];
        cbn [snd] in *; rewrite ?calls_handled; exact Hcalls.
    + repeat split; try assumption.
      destruct new as [|c new] using rev_ind; [cbn; lia|].
      rewrite removelast_last in Hlast. rewrite count_app, Hlast.
      cbn. destruct (is_to_decoder c); cbn; lia.
  - exists []. cbn. rewrite app_nil_r. repeat split; lia.
Qed.

(** The guarded body changes the state of the sub-modules through its
    calls only, and what it returns is what its decoder call returned. *)
Lemma forward_body_replay
    (self : Gemini) (t : Tensor) (img audio : option Tensor) (ex : extra)
    (w : world) :
  exists new,
    calls (snd (forward_body self t img audio ex w)) = (calls w ++ new)%list
    /\ Forall (forward_call_ok (Some t) img audio ex) new
    /\ modules (snd (forward_body self t img audio ex w)) =
         replay self new (modules w)
    /\ match fst (forward_body self t img audio ex w) with
       | Ret y =>
           exists before p,
             new = (before ++ [to_decoder t p ex])%list
             /\ count is_to_decoder before = 0
             /\ fst (fst (call_AutoregressiveWrapper (decoder self) t p ex
                            (replay self before (modules w)))) = Ret y
       | Raise _ => True
       end.
Proof.
  destruct img as [i|], audio as [a|].
  - rewrite body_both. cbv zeta.
    destruct (fst (fst (call_AudioToEmbeddings _ a (modules w)))) as [a'|e].
    2:{ exists [to_audio_encoder a]. settle. }
    cbn [modules].
    destruct (fst (fst (call_ImageToTextEmbeddings _ i _))) as [i'|e].
    2:{ exists [to_audio_encoder a; to_img_encoder i].
        cbn [snd calls]. rewrite <- app_assoc. settle. }
    destruct (torch_cat [t; i'; a']) as [fused|e].
    2:{ exists [to_audio_encoder a; to_img_encoder i].
        cbn [snd calls]. rewrite <- app_assoc. settle. }
    rewrite run_invoke. cbn [fst snd calls modules].
    exists [to_audio_encoder a; to_img_encoder i; to_decoder t (Some fused) ex].
    rewrite <- !app_assoc.
    split; [reflexivity|]. split; [repeat (constructor; cbn; auto)|].
    split; [reflexivity|].
    destruct (fst (fst (call_AutoregressiveWrapper _ t (Some fused) ex _))) eqn:E;
      [|exact I].
    exists [to_audio_encoder a; to_img_encoder i], (Some fused).
    repeat split. exact E.
  - rewrite body_img_only. cbv zeta.
    destruct (fst (fst (call_ImageToTextEmbeddings _ i (modules w)))) as [i'|e].
    2:{ exists [to_img_encoder i]. settle. }
    rewrite run_invoke. cbn [fst snd calls modules].
    exists [to_img_encoder i; to_decoder t (Some i') ex].
    rewrite <- !app_assoc.
    split; [reflexivity|]. split; [repeat (constructor; cbn; auto)|].
    split; [reflexivity|].
    destruct (fst (fst (call_AutoregressiveWrapper _ t (Some i') ex _))) eqn:E;
      [|exact I].
    exists [to_img_encoder i], (Some i'). repeat split. exact E.
  - rewrite body_audio_only. cbv zeta.
    destruct (fst (fst (call_AudioToEmbeddings _ a (modules w)))) as [a'|e].
    2:{ exists [to_audio_encoder a]. settle. }
    rewrite run_invoke. cbn [fst snd calls modules].
    exists [to_audio_encoder a; to_decoder t (Some a') ex].
    rewrite <- !app_assoc.
    split; [reflexivity|]. split; [repeat (constructor; cbn; auto)|].
    split; [reflexivity|].
    destruct (fst (fst (call_AutoregressiveWrapper _ t (Some a') ex _))) eqn:E;
      [|exact I].
    exists [to_audio_encoder a], (Some a'). repeat split. exact E.
  - rewrite body_text_only, run_invoke. cbn [fst snd calls modules].
    exists [to_decoder t None ex].
    split; [reflexivity|]. split; [repeat (constructor; cbn; auto)|].
    split; [reflexivity|].
    destruct (fst (fst (call_AutoregressiveWrapper _ t None ex _))) eqn:E;
      [|exact I].
    exists [], None. repeat split. exact E.
Qed.

(** X3. When [forward] returns, it made exactly one decoder call, as
    its last call, and what it returns is what that call returned: the
    answer of the decoder for the caller's text, the recorded
    [prepend_embeds] and the caller's extra arguments, in the state in
    which the calls made before it (the encoders') left the
    sub-modules.  The output of the decoder is handed on as it is. *)
Theorem forward_returns_decoder_output
    (self : Gemini) (text img audio : option Tensor) (ex : extra) (w : world)
    (y : Tensor) :
  fst (forward self text img audio ex w) = Ret y ->
  exists t before p,
    text = Some t
    /\ calls (snd (forward self text img audio ex w)) =
         (calls w ++ before ++ [to_decoder t p ex])%list
    /\ count is_to_decoder before = 0
    /\ fst (fst (call_AutoregressiveWrapper (decoder self) t p ex
                   (replay self before (modules w)))) = Ret y.
Proof.
  destruct text as [t|]; [|discriminate].
  intros Hret.
  destruct (forward_body_replay self t img audio ex (shape_printed t w))
    as (new & Hcalls & _ & _ & Hout).
  rewrite forward_some in Hret |- *.
  destruct (forward_body self t img audio ex (shape_printed t w)) as [[y'|e] w1];
    [|discriminate].
  cbn [fst snd] in *. injection Hret as ->.
  destruct Hout as (before & p & Hnew & Hcount & Hdec).
  exists t, before, p.
  cbn [calls modules shape_printed] in *. subst new.
  repeat split; assumption.
Qed.


(** X4. Every call of [forward] with a text first prints the line
    ["Text shape: "] followed by the shape of the text; standard output
    is only ever added to. *)
Theorem forward_prints_shape_first
    (self : Gemini) (t : Tensor) (img audio : option Tensor) (ex : extra)
    (w : world) :
  exists out,
    stdout (snd (forward self (Some t) img audio ex w)) =
    stdout w ++ "Text shape: " ++ str_Size (shape t) ++ nl ++ out.
Proof.
  assert (Hbody : forall w0, exists out,
             stdout (snd (forward_body self t img audio ex w0)) = stdout w0 ++ out).
  { intros w0. destruct img as [i|], audio as [a|].
    - rewrite body_both. cbv zeta.
      destruct (fst (fst (call_AudioToEmbeddings _ a (modules w0)))) as [a'|e];
        [|eexists; reflexivity].
      cbn [modules stdout].
      destruct (fst (fst (call_ImageToTextEmbeddings _ i _))) as [i'|e].
      + destruct (torch_cat [t; i'; a']) as [fused|e].
        * rewrite run_invoke. cbn [snd stdout].
          rewrite !string_app_assoc. eexists; reflexivity.
        * cbn [snd stdout]. rewrite !string_app_assoc. eexists; reflexivity.
      + cbn [snd stdout]. rewrite !string_app_assoc. eexists; reflexivity.
    - rewrite body_img_only. cbv zeta.
      destruct (fst (fst (call_ImageToTextEmbeddings _ i (modules w0)))) as [i'|e];
        [|eexists; reflexivity].
      rewrite run_invoke. cbn [snd stdout].
      rewrite !string_app_assoc. eexists; reflexivity.
    - rewrite body_audio_only. cbv zeta.
      destruct (fst (fst (call_AudioToEmbeddings _ a (modules w0)))) as [a'|e];
        [|eexists; reflexivity].
      rewrite run_invoke. cbn [snd stdout].
      rewrite !string_app_assoc. eexists; reflexivity.
    - rewrite body_text_only, run_invoke. cbn [snd stdout].
      eexists; reflexivity. }
  destruct (Hbody (shape_printed t w)) as [out Hout].
  rewrite forward_some.
  destruct (forward_body self t img audio ex (shape_printed t w)) as [[y|e] w1];
    cbn [snd] in *; rewrite ?stdout_handled; cbn [stdout shape_printed] in *;
    rewrite Hout; unfold print_text; cbn [String.concat];
    rewrite !string_app_assoc; eexists; reflexivity.
Qed.

End Discipline.

Section Failures.

Context {C : Collaborators}.

Local Abbreviation Tensor := (tensor scalar).

(** X5. With both modalities present the audio encoder runs first.  If
    it raises, the image encoder and the decoder are not called at all:
    the audio encoder's call is the only one made, and [forward] raises
    the encoder's exception, after printing its line if the exception
    is an instance of [Exception] and without printing it otherwise. *)
Theorem audio_failure_stops_forward
    (self : Gemini) (t i a : Tensor) (ex : extra) (w : world)
    (e : exn) (s1 : store) (o1 : string) :
  call_AudioToEmbeddings (audio_to_lang_embedding self) a (modules w)
    = (Raise e, s1, o1) ->
  forward self (Some t) (Some i) (Some a) ex w =
    (Raise e,
     mk_world (((stdout w ++ print_text ["Text shape: " ++ str_Size (shape t)])
                ++ o1)
               ++ (if exn_is_Exception e
                   then "Failed in forward method: " ++ " " ++ exn_str e ++ nl
                   else ""))
              (calls w ++ [to_audio_encoder a])%list s1).
Proof.
  intros Ha. rewrite forward_some, body_both. cbv zeta.
  cbn [modules calls stdout shape_printed]. rewrite Ha.
  cbn [fst snd]. now rewrite handled_world.
Qed.

(** X6. With both modalities present, if the audio encoder returns and
    the image encoder then raises, nothing is fused and the decoder is
    not called: the two encoder calls are the only ones made, the
    sub-modules are left as the image encoder left them, and [forward]
    raises the image encoder's exception, after printing its line if
    the exception is an instance of [Exception] and without printing it
    otherwise. *)
Theorem image_failure_stops_fusion
    (self : Gemini) (t i a : Tensor) (ex : extra) (w : world)
    (a' : Tensor) (e : exn) (s1 s2 : store) (o1 o2 : string) :
  call_AudioToEmbeddings (audio_to_lang_embedding self) a (modules w)
    = (Ret a', s1, o1) ->
  call_ImageToTextEmbeddings (img_to_text_embedding self) i s1
    = (Raise e, s2, o2) ->
  forward self (Some t) (Some i) (Some a) ex w =
    (Raise e,
     mk_world ((((stdout w ++ print_text ["Text shape: " ++ str_Size (shape t)])
                 ++ o1) ++ o2)
               ++ (if exn_is_Exception e
                   then "Failed in forward method: " ++ " " ++ exn_str e ++ nl
                   else ""))
              ((calls w ++ [to_audio_encoder a]) ++ [to_img_encoder i])%list s2).
Proof.
  intros Ha Hi. rewrite forward_some, body_both. cbv zeta.
  cbn [modules calls stdout shape_printed]. rewrite Ha.
  cbn [fst snd modules calls stdout]. rewrite Hi.
  cbn [fst snd]. now rewrite handled_world.
Qed.

(** X8. A text of token ids, of shape (batch, sequence), cannot be
    fused with embeddings of three dimensions: with both modalities
    present and both encoders returning such embeddings, [torch.cat]
    raises, the decoder is not called, and [forward] logs and raises
    that [RuntimeError]. *)
Theorem forward_token_ids_cannot_fuse
    (self : Gemini) (t i a : Tensor) (ex : extra) (w : world)
    (a' i' : Tensor) (s1 s2 : store) (o1 o2 : string)
    (b1 n1 b2 n2 d2 b3 n3 d3 : nat) :
  call_AudioToEmbeddings (audio_to_lang_embedding self) a (modules w)
    = (Ret a', s1, o1) ->
  call_ImageToTextEmbeddings (img_to_text_embedding self) i s1
    = (Ret i', s2, o2) ->
  shape t = [b1; n1] -> shape i' = [b2; n2; d2] -> shape a' = [b3; n3; d3] ->
  let e := RuntimeError "Tensors must have same number of dimensions" in
  fst (forward self (Some t) (Some i) (Some a) ex w) = Raise e
  /\ calls (snd (forward self (Some t) (Some i) (Some a) ex w)) =
       (calls w ++ [to_audio_encoder a; to_img_encoder i])%list
  /\ stdout (snd (forward self (Some t) (Some i) (Some a) ex w)) =
       (((stdout w ++ print_text ["Text shape: " ++ str_Size (shape t)]) ++ o1)
          ++ o2) ++ "Failed in forward method: " ++ " " ++ exn_str e ++ nl.
Proof.
  intros Ha Hi Ht Hi' Ha'. cbv zeta.
  rewrite forward_some, body_both. cbv zeta.
  cbn [modules calls stdout shape_printed]. rewrite Ha.
  cbn [fst snd modules calls stdout]. rewrite Hi.
  cbn [fst snd modules calls stdout].
  assert (Hz : zero_dim a' = false) by (unfold zero_dim; now rewrite Ha').
  rewrite (torch_cat_rank_mismatch t i' a' Ht Hi' Hz).
  cbn [fst snd]. rewrite handled_world. cbn [stdout calls modules].
  rewrite <- app_assoc. repeat split.
Qed.

(** X10. With both modalities present and well-shaped embeddings that
    agree in sequence length and hidden size, the tensor handed to the
    decoder as [prepend_embeds] is well shaped too: it has as many
    elements as the text and the two embeddings together, under a first
    size that is the sum of theirs. *)
Theorem fused_prepend_is_well_shaped
    (self : Gemini) (t i a : Tensor) (ex : extra) (w : world)
    (a' i' : Tensor) (s1 s2 : store) (o1 o2 : string) (b1 b2 b3 n d : nat) :
  call_AudioToEmbeddings (audio_to_lang_embedding self) a (modules w)
    = (Ret a', s1, o1) ->
  call_ImageToTextEmbeddings (img_to_text_embedding self) i s1
    = (Ret i', s2, o2) ->
  shape t = [b1; n; d] -> shape i' = [b2; n; d] -> shape a' = [b3; n; d] ->
  well_shaped t -> well_shaped i' -> well_shaped a' ->
  exists fused,
    calls (snd (forward self (Some t) (Some i) (Some a) ex w)) =
      (calls w ++ [to_audio_encoder a; to_img_encoder i;
                   to_decoder t (Some fused) ex])%list
    /\ well_shaped fused
    /\ shape fused = [b1 + b2 + b3; n; d]
    /\ List.length (data fused) =
         List.length (data t) + List.length (data i') + List.length (data a').
Proof.
  intros Ha Hi Ht Hi' Ha' Wt Wi Wa.
  exists (mk_tensor [b1 + b2 + b3; n; d] (data t ++ data i' ++ data a')%list).
  split; [now apply (forward_fuses_batches self t i a ex w Ha Hi)|].
  split.
  - apply (torch_cat_3d_well_shaped Ht Hi' Ha' Wt Wi Wa).
    apply (torch_cat_batches_add t i' a' Ht Hi' Ha').
  - split; [reflexivity|]. cbn [data]. rewrite !length_app. lia.
Qed.

End Failures.

(* ================================================================== *)
(** * Further properties of [__init__] *)

Section Wiring.

Context {C : Collaborators}.

(** X11. The constructor arguments [patch_size] and [img_channels] are
    passed to no sub-module (the image encoder gets [patches] as its
    patch size): giving them other values changes nothing in what
    [__init__] does. *)
Theorem init_ignores_patch_size_and_channels
    (hp : hparams) (ps ic : Z) (ex : extra) (w : world) :
  Gemini_init (with_patch_size_and_channels hp ps ic) ex w = Gemini_init hp ex w.
Proof. reflexivity. Qed.

(** X12. When [__init__] returns a model, it has made exactly the five
    constructor calls, in the order attention layers, transformer,
    wrapper, image encoder, audio encoder, with the caller's extra
    arguments given to all but the transformer and the wrapper; the
    model's [decoder] is the wrapper built around the model's own
    [gemini], whose layers are those the first call built, and its two
    encoders are what their constructors returned. *)
Theorem init_wires_submodules
    (hp : hparams) (ex : extra) (w w' : world) (g : Gemini) :
  Gemini_init hp ex w = (Ret g, w') ->
  let dkw := mk_Decoder_kwargs (dim hp) (depth hp) (dim_head hp) (heads hp)
               (attn_flash hp) (attn_kv_heads hp) (qk_norm hp)
               (attn_qk_norm hp) (attn_qk_norm_dim_scale hp) in
  let ikw := mk_ImageToTextEmbeddings_kwargs (patches hp) (dim hp)
               (max_seq_len hp) in
  let akw := mk_AudioToEmbeddings_kwargs (audio_seq_len hp) (max_seq_len hp) in
  exists layers s1 s2 s3 s4 s5,
    let tkw := mk_Transformer_kwargs (num_tokens hp) (max_seq_len hp)
                 (use_abs_pos_emb hp) layers in
    calls w' =
      (calls w ++
       [new_Decoder dkw ex; new_Transformer tkw;
        new_AutoregressiveWrapper (gemini g);
        new_ImageToTextEmbeddings ikw ex; new_AudioToEmbeddings akw ex])%list
    /\ fst (Decoder dkw ex (modules w)) = (Ret layers, s1)
    /\ fst (Transformer tkw s1) = (Ret (gemini g), s2)
    /\ fst (AutoregressiveWrapper (gemini g) s2) = (Ret (decoder g), s3)
    /\ fst (ImageToTextEmbeddings ikw ex s3) = (Ret (img_to_text_embedding g), s4)
    /\ fst (AudioToEmbeddings akw ex s4) = (Ret (audio_to_lang_embedding g), s5)
    /\ modules w' = s5.
Proof.
  intros Hrun. cbv zeta. rewrite init_unfold in Hrun.
  unfold init_body, bind in Hrun. rewrite run_invoke in Hrun.
  destruct (Decoder _ ex (modules w)) as [[r1 s1] o1] eqn:E1.
  cbn [fst snd] in Hrun. destruct r1 as [layers|e]; [|discriminate].
  rewrite run_invoke in Hrun. cbn [modules calls stdout] in Hrun.
  destruct (Transformer _ s1) as [[r2 s2] o2] eqn:E2.
  cbn [fst snd] in Hrun. destruct r2 as [net|e]; [|discriminate].
  rewrite run_invoke in Hrun. cbn [modules calls stdout] in Hrun.
  destruct (AutoregressiveWrapper net s2) as [[r3 s3] o3] eqn:E3.
  cbn [fst snd] in Hrun. destruct r3 as [wrapped|e]; [|discriminate].
  rewrite run_invoke in Hrun. cbn [modules calls stdout] in Hrun.
  destruct (ImageToTextEmbeddings _ ex s3) as [[r4 s4] o4] eqn:E4.
  cbn [fst snd] in Hrun. destruct r4 as [img_enc|e]; [|discriminate].
  rewrite run_invoke in Hrun. cbn [modules calls stdout] in Hrun.
  destruct (AudioToEmbeddings _ ex s4) as [[r5 s5] o5] eqn:E5.
  cbn [fst snd] in Hrun. destruct r5 as [audio_enc|e]; [|discriminate].
  cbn in Hrun. injection Hrun as <- <-.
  exists layers, s1, s2, s3, s4, s5. cbn [gemini decoder img_to_text_embedding
    audio_to_lang_embedding calls modules].
  rewrite E2, E3, E4, E5, <- !app_assoc. repeat split.
Qed.

End Wiring.


(* ================================================================== *)
(** * Further runs on the test doubles *)

Module Checks.

Import Stub.

Local Abbreviation run_forward := (forward (C := collaborators) model).

(** [forward_returns_decoder_output] on a call with text and image. *)
Lemma forward_returns_decoder_output_witness :
  exists (t : tensor Z) (before : list (call (C := collaborators)))
         (p : option (tensor Z)),
    Some sample_text = Some t
    /\ calls (snd (run_forward (Some sample_text) (Some sample_img) None tt w0)) =
         (calls w0 ++ before ++ [to_decoder (C := collaborators) t p tt])%list
    /\ count is_to_decoder before = 0
    /\ fst (fst (call_AutoregressiveWrapper (Collaborators := collaborators)
                   (decoder model) t p tt
                   (replay (C := collaborators) model before (modules w0))))
       = Ret sample_text.
Proof.
  exact (@forward_returns_decoder_output collaborators model (Some sample_text)
           (Some sample_img) None tt w0 sample_text eq_refl).
Defined.

(** [audio_failure_stops_forward] on an audio input the encoder rejects. *)
Lemma audio_failure_stops_forward_witness :
  let e := RuntimeError "expected a batched input" in
  run_forward (Some sample_text) (Some sample_img) (Some scalar_img) tt w0 =
    (Raise e,
     mk_world (C := collaborators)
       ((("" ++ print_text ["Text shape: " ++ str_Size (shape sample_text)]) ++ "")
          ++ "Failed in forward method: " ++ " " ++ exn_str e ++ nl)
       [to_audio_encoder (C := collaborators) scalar_img] 5).
Proof.
  exact (@audio_failure_stops_forward collaborators model sample_text sample_img
           scalar_img tt w0 _ 5 "" eq_refl).
Defined.

(** [image_failure_stops_fusion] on an image the encoder rejects. *)
Lemma image_failure_stops_fusion_witness :
  let e := RuntimeError "expected a batched input" in
  run_forward (Some sample_text) (Some scalar_img) (Some sample_audio) tt w0 =
    (Raise e,
     mk_world (C := collaborators)
       (((("" ++ print_text ["Text shape: " ++ str_Size (shape sample_text)]) ++ "")
           ++ "")
          ++ "Failed in forward method: " ++ " " ++ exn_str e ++ nl)
       [to_audio_encoder (C := collaborators) sample_audio;
        to_img_encoder (C := collaborators) scalar_img] 5).
Proof.
  exact (@image_failure_stops_fusion collaborators model sample_text scalar_img
           sample_audio tt w0 sample_audio _ 5 5 "" "" eq_refl eq_refl).
Defined.

(** [forward_inner_mismatch_raises] on embeddings of 2 and 3 positions. *)
Lemma forward_inner_mismatch_raises_witness :
  fst (run_forward (Some sample_text) (Some short_embeds) (Some long_embeds) tt w0)
  = Raise (RuntimeError "Sizes of tensors must match except in dimension 0").
Proof.
  refine (f_equal fst
            (@forward_inner_mismatch_raises collaborators model sample_text
               short_embeds long_embeds tt w0 long_embeds short_embeds 5 5 "" ""
               1 2 2 1 2 2 1 3 2 eq_refl eq_refl eq_refl eq_refl eq_refl _)).
  right. discriminate.
Defined.

(** [forward_token_ids_cannot_fuse] on a text of shape (1, 2). *)
Lemma forward_token_ids_cannot_fuse_witness :
  let e := RuntimeError "Tensors must have same number of dimensions" in
  fst (run_forward (Some token_ids) (Some sample_img) (Some sample_audio) tt w0)
    = Raise e
  /\ calls (snd (run_forward (Some token_ids) (Some sample_img)
                   (Some sample_audio) tt w0)) =
       [to_audio_encoder (C := collaborators) sample_audio;
        to_img_encoder (C := collaborators) sample_img]
  /\ stdout (snd (run_forward (Some token_ids) (Some sample_img)
                    (Some sample_audio) tt w0)) =
       ((("" ++ print_text ["Text shape: " ++ str_Size (shape token_ids)]) ++ "")
          ++ "") ++ "Failed in forward method: " ++ " " ++ exn_str e ++ nl.
Proof.
  exact (@forward_token_ids_cannot_fuse collaborators model token_ids sample_img
           sample_audio tt w0 sample_audio sample_img 5 5 "" ""
           1 2 2 2 2 3 2 2 eq_refl eq_refl eq_refl eq_refl eq_refl).
Defined.

(** [forward_fuses_batches] on embeddings of batch sizes 1, 2 and 3. *)
Lemma forward_fuses_batches_witness :
  calls (snd (run_forward (Some sample_text) (Some sample_img)
                (Some sample_audio) tt w0)) =
    [to_audio_encoder (C := collaborators) sample_audio;
     to_img_encoder (C := collaborators) sample_img;
     to_decoder (C := collaborators) sample_text
       (Some (mk_tensor [1 + 2 + 3; 2; 2]
                (data sample_text ++ data sample_img ++ data sample_audio)%list))
       tt].
Proof.
  exact (@forward_fuses_batches collaborators model sample_text sample_img
           sample_audio tt w0 sample_audio sample_img 5 5 "" "" 1 2 3 2 2
           eq_refl eq_refl eq_refl eq_refl eq_refl).
Defined.

(** [fused_prepend_is_well_shaped] on the same call. *)
Lemma fused_prepend_is_well_shaped_witness :
  exists fused : tensor Z,
    calls (snd (run_forward (Some sample_text) (Some sample_img)
                  (Some sample_audio) tt w0)) =
      [to_audio_encoder (C := collaborators) sample_audio;
       to_img_encoder (C := collaborators) sample_img;
       to_decoder (C := collaborators) sample_text (Some fused) tt]
    /\ well_shaped fused
    /\ shape fused = [1 + 2 + 3; 2; 2]
    /\ List.length (data fused) =
         List.length (data sample_text) + List.length (data sample_img)
         + List.length (data sample_audio).
Proof.
  exact (@fused_prepend_is_well_shaped collaborators model sample_text sample_img
           sample_audio tt w0 sample_audio sample_img 5 5 "" "" 1 2 3 2 2
           eq_refl eq_refl eq_refl eq_refl eq_refl eq_refl eq_refl eq_refl).
Defined.

(** [init_wires_submodules] on the default hyperparameters. *)
Lemma init_wires_submodules_witness :
  let dkw := mk_Decoder_kwargs 2560 32 128 24 true 2 true true true in
  let ikw := mk_ImageToTextEmbeddings_kwargs 16 2560 32052 in
  let akw := mk_AudioToEmbeddings_kwargs 128 32052 in
  exists (layers : Z) (s1 s2 s3 s4 s5 : nat),
    let tkw := mk_Transformer_kwargs 50432 32052 false layers in
    calls (snd (Gemini_init (C := collaborators) default_hparams tt w0)) =
      [new_Decoder (C := collaborators) dkw tt;
       new_Transformer (C := collaborators) tkw;
       new_AutoregressiveWrapper (C := collaborators) (gemini model);
       new_ImageToTextEmbeddings (C := collaborators) ikw tt;
       new_AudioToEmbeddings (C := collaborators) akw tt]
    /\ fst (Decoder (Collaborators := collaborators) dkw tt 5) = (Ret layers, s1)
    /\ fst (Transformer (Collaborators := collaborators) tkw s1)
         = (Ret (gemini model), s2)
    /\ fst (AutoregressiveWrapper (Collaborators := collaborators) (gemini model) s2)
         = (Ret (decoder model), s3)
    /\ fst (ImageToTextEmbeddings (Collaborators := collaborators) ikw tt s3)
         = (Ret (img_to_text_embedding model), s4)
    /\ fst (AudioToEmbeddings (Collaborators := collaborators) akw tt s4)
         = (Ret (audio_to_lang_embedding model), s5)
    /\ modules (snd (Gemini_init (C := collaborators) default_hparams tt w0)) = s5.
Proof.
  exact (@init_wires_submodules collaborators default_hparams tt w0
           (snd (Gemini_init (C := collaborators) default_hparams tt w0))
           model eq_refl).
Defined.



(** C8 as stated does not hold: when building the attention layers is
    interrupted, [__init__] raises the [KeyboardInterrupt] and has
    printed nothing. *)
Lemma interrupted_init_is_not_logged :
  ~ (forall (hp : hparams) (w : world (C := Interrupted.collaborators))
            (e : exn) (w' : world (C := Interrupted.collaborators)),
        Gemini_init (C := Interrupted.collaborators) hp tt w = (Raise e, w') ->
        exists out,
          stdout w' =
          stdout w ++ out ++ "Failed to initialize gemini: " ++ " " ++ exn_str e ++ nl).
Proof.
  intros H.
  destruct (H default_hparams Interrupted.w0 _ _ eq_refl) as [out Hout].
  cbn [stdout snd Interrupted.w0] in Hout. destruct out; discriminate Hout.
Qed.


End Checks.
